(** * Issue-Tracker: the ticket views ([tickets/views.py])

    A shallow embedding of the view layer of the ticket tracker and the
    properties of it that the specification states.  Query sets are lists of
    rows, URL keyword arguments and query dictionaries are finite maps, and
    the function views run in a small monad that records form saves and
    propagates Python exceptions. *)

From Stdlib Require Import ZArith String Ascii List Bool Lia.
From Stdlib Require Import Sorting.Sorted Sorting.Permutation.
From stdpp Require Import base gmap strings list sorting.

Local Open Scope string_scope.
Local Open Scope Z_scope.

(** ** Python values *)

Module Py.

(** Truthiness of an optional string, as tested by [if q:] on the result of
    [dict.get]: [None] and the empty string are false. *)
Definition truthy (o : option string) : bool :=
  match o with
  | Some s => negb (String.eqb s "")
  | None => false
  end.

(** [if x: ... x ...] on the result of [dict.get]: the branch taken, with the
    string in hand where it is taken. *)
Definition if_truthy {A : Type} (o : option string) (yes : string -> A) (no : A) : A :=
  match o with
  | Some s => if negb (String.eqb s "") then yes s else no
  | None => no
  end.

(** Truthiness of an optional integer ([if pk:]): [None] and [0] are false. *)
Definition truthy_int (o : option Z) : bool :=
  match o with
  | Some n => negb (n =? 0)
  | None => false
  end.

Definition if_truthy_int {A : Type} (o : option Z) (yes : Z -> A) (no : A) : A :=
  match o with
  | Some n => if negb (n =? 0) then yes n else no
  | None => no
  end.

(** [x == "literal"] where [x] came from [dict.get] and may be [None]. *)
Definition eq_str (o : option string) (lit : string) : bool :=
  match o with
  | Some s => String.eqb s lit
  | None => false
  end.

(** Lower case, on the ASCII letters. *)
Definition lower_ascii (c : ascii) : ascii :=
  let n := nat_of_ascii c in
  if ((65 <=? n)%nat && (n <=? 90)%nat)%bool then ascii_of_nat (n + 32) else c.

Fixpoint lower (s : string) : string :=
  match s with
  | EmptyString => EmptyString
  | String c r => String (lower_ascii c) (lower r)
  end.

(** [needle in hay] on strings. *)
Fixpoint contains (needle hay : string) : bool :=
  String.prefix needle hay
  || match hay with
     | EmptyString => false
     | String _ r => contains needle r
     end.

End Py.

(** ** The relational data model the views query ([.models]) *)

Module Models.

Record User := {
  user_id : Z;
  username : string
}.

(** [request.user]: the anonymous user or a row of the user table. *)
Inductive RequestUser :=
| AnonymousUser
| AuthenticatedUser (u : User).

Record Tag := {
  tag_id : Z;
  slug : string
}.

Record Ticket := {
  ticket_id : Z;
  title : string;
  description : string;
  status : string;
  ticket_type : string;
  created_on : Z;
  submitted_by : User;
  assigned_to : option User;
  tags : list Tag
}.

Record FollowUp := {
  followup_id : Z;
  followup_ticket : Z;
  followup_created_on : Z;
  private : bool
}.

Record UserVoteLog := {
  vote_ticket : Z;
  vote_user_id : Z
}.

Record Database := {
  Ticket_table : list Ticket;
  FollowUp_table : list FollowUp;
  UserVoteLog_table : list UserVoteLog
}.

End Models.
Export Models.

(** [user == ticket.submitted_by]: model instances are equal when their
    primary keys are; the anonymous user equals no row. *)
Definition user_eq (u : RequestUser) (v : User) : bool :=
  match u with
  | AnonymousUser => false
  | AuthenticatedUser w => user_id w =? user_id v
  end.

(** ** Requests, responses, forms *)

Record HttpRequest := {
  user : RequestUser;
  GET : gmap string string;
  POST : gmap string string
}.

(** [if request.POST:] a query dictionary is true when it is not empty. *)
Definition truthy_dict (d : gmap string string) : bool :=
  negb (bool_decide (d = ∅)).

(** The instance a form edits: a stored row, or the unsaved
    [Ticket(submitted_by=request.user, status="new")]. *)
Inductive TicketInstance :=
| Stored (t : Ticket)
| Unsaved (owner : RequestUser) (new_status : string).

Inductive FormClass :=
| AcceptTicketForm
| AssignTicketForm
| CloseTicketForm
| CommentTicketForm
| TicketForm.

Record Form := {
  form_class : FormClass;
  form_data : option (gmap string string);
  form_instance : TicketInstance;
  form_user : option RequestUser;
  form_action : option string
}.

Inductive ContextValue :=
| CtxForm (f : Form)
| CtxTicket (t : TicketInstance)
| CtxStr (s : string).

Inductive HttpResponse :=
| HttpResponseRedirect (url : string)
| TemplateResponse (template : string) (context : list (string * ContextValue)).

Definition redirect (to : string) : HttpResponse := HttpResponseRedirect to.

Definition render (request : HttpRequest) (template : string)
    (context : list (string * ContextValue)) : HttpResponse :=
  TemplateResponse template context.

(** ** What the module imports from the rest of the project

    [.utils], [.filters], [.forms], the model managers and methods of
    [.models] and the URL configuration are not part of this module; the
    views are parametric in them. *)

Class Externals := {
  (** [.utils.is_admin] *)
  is_admin : RequestUser -> bool;
  (** [.filters.TicketFilter(data, queryset=qs).qs] *)
  TicketFilter_qs : gmap string string -> list Ticket -> list Ticket;
  (** [FollowUp.objects] and [FollowUp.all_comments], the two managers *)
  FollowUp_objects : Database -> list FollowUp;
  FollowUp_all_comments : Database -> list FollowUp;
  (** [form.is_valid()] and the instance [form.save()] returns *)
  is_valid : Form -> bool;
  saved_instance : Form -> Ticket;
  (** [ticket.get_absolute_url()] *)
  get_absolute_url : Ticket -> string;
  (** [django.urls.reverse] on the project's URL configuration *)
  url_reverse : string -> string;
  (** where [login_required] sends an anonymous request *)
  login_redirect_url : HttpRequest -> string
}.

(** ** The object-relational layer, on lists of rows *)

Module ORM.

(** [Ticket.objects]: the default manager, every row of the table. *)
Definition Ticket_objects (db : Database) : list Ticket := Ticket_table db.

(** The order of [order_by("-created_on")]. *)
Definition created_desc (a b : Ticket) : Prop := created_on b <= created_on a.

Definition followup_created_desc (a b : FollowUp) : Prop :=
  followup_created_on b <= followup_created_on a.

#[global] Instance created_desc_dec : RelDecision created_desc.
Proof. intros a b. unfold created_desc. apply _. Defined.

#[global] Instance followup_created_desc_dec : RelDecision followup_created_desc.
Proof. intros a b. unfold followup_created_desc. apply _. Defined.

Definition order_by_created_on_desc (qs : list Ticket) : list Ticket :=
  merge_sort created_desc qs.

Definition followup_order_by_created_on_desc (qs : list FollowUp) : list FollowUp :=
  merge_sort followup_created_desc qs.

(** [field__icontains=q]: case-insensitive containment. *)
Definition icontains (field q : string) : bool :=
  Py.contains (Py.lower q) (Py.lower field).

(** [submitted_by__username=name] and [assigned_to__username=name]; a null
    [assigned_to] matches no name. *)
Definition submitted_by__username (name : string) (t : Ticket) : bool :=
  String.eqb (username (submitted_by t)) name.

Definition assigned_to__username (name : string) (t : Ticket) : bool :=
  match assigned_to t with
  | Some u => String.eqb (username u) name
  | None => false
  end.

(** [status__in=codes] *)
Definition status__in (codes : list string) (t : Ticket) : bool :=
  existsb (String.eqb (status t)) codes.

(** [filter(tags__slug=s)] joins the tag rows: one result row per matching
    tag of a ticket. *)
Definition filter_tags__slug (s : string) (qs : list Ticket) : list Ticket :=
  flat_map (fun t => map (fun _ => t)
                       (List.filter (fun g => String.eqb (slug g) s) (tags t))) qs.

(** [filter(tags__slug=None)] is the [isnull] lookup over the outer join:
    the tickets without a tag row. *)
Definition filter_tags__slug_isnull (qs : list Ticket) : list Ticket :=
  List.filter (fun t => match tags t with [] => true | _ => false end) qs.

(** [filter(ticket__pk=pk)] on follow-ups. *)
Definition filter_ticket__pk (pk : Z) (qs : list FollowUp) : list FollowUp :=
  List.filter (fun c => followup_ticket c =? pk) qs.

End ORM.

(** ** Class-based list views *)

Module TagIndexView.

Definition paginate_by : nat := 50.

Definition get_queryset (db : Database) (kwargs : gmap string string) : list Ticket :=
  match kwargs !! "slug" with
  | Some s => ORM.filter_tags__slug s (ORM.Ticket_objects db)
  | None => ORM.filter_tags__slug_isnull (ORM.Ticket_objects db)
  end.

(** The page [number] (from 1) that the list view's paginator cuts out of
    the query set: [object_list[(number-1)*per_page : number*per_page]]. *)
Definition page (qs : list Ticket) (number : nat) : list Ticket :=
  firstn paginate_by (skipn ((number - 1) * paginate_by) qs).

End TagIndexView.

Module TicketListView.

Definition closed_codes : list string := ["closed"; "split"; "duplicate"].

Section get_queryset.
Context `{Externals}.

Definition get_queryset (db : Database) (request : HttpRequest)
    (kwargs : gmap string string) : list Ticket :=
  let q := GET request !! "q" in
  let username := kwargs !! "username" in
  let what := kwargs !! "what" in
  let ticket_type := kwargs !! "type" in
  let ticket_status := kwargs !! "status" in
  let tickets := ORM.order_by_created_on_desc (ORM.Ticket_objects db) in
  let tickets :=
    Py.if_truthy q
      (fun q => List.filter (fun t => ORM.icontains (description t) q
                                      || ORM.icontains (title t) q) tickets)
      tickets in
  let tickets :=
    Py.if_truthy username
      (fun username =>
         if Py.eq_str what "submitted_by" then
           List.filter (ORM.submitted_by__username username) tickets
         else if Py.eq_str what "assigned_to" then
           List.filter (ORM.assigned_to__username username) tickets
         else
           List.filter (fun t => ORM.submitted_by__username username t
                                 || ORM.assigned_to__username username t) tickets)
      tickets in
  let tickets :=
    Py.if_truthy ticket_type
      (fun ticket_type =>
         ORM.order_by_created_on_desc
           (List.filter (fun t => String.eqb (Models.ticket_type t) ticket_type) tickets))
      tickets in
  let tickets :=
    Py.if_truthy ticket_status
      (fun ticket_status =>
         if String.eqb ticket_status "closed" then
           ORM.order_by_created_on_desc
             (List.filter (ORM.status__in closed_codes) (ORM.Ticket_objects db))
         else
           ORM.order_by_created_on_desc
             (List.filter (fun t => negb (ORM.status__in closed_codes t))
                (ORM.Ticket_objects db)))
      tickets in
  (* finally - django_filter *)
  TicketFilter_qs (GET request) tickets.

End get_queryset.

End TicketListView.


(** ** Running a function view

    A view either returns a value or raises a Python exception, and on the
    way it may save forms; the saves are recorded in order. *)

Inductive Exception :=
| NameError (name : string)
| Http404
| DoesNotExist
| MultipleObjectsReturned.

Inductive Effect :=
| FormSave (f : Form).

Inductive Result (A : Type) :=
| Returned (a : A)
| Raised (e : Exception).
Arguments Returned {A} a.
Arguments Raised {A} e.

Definition Run (A : Type) : Type := list Effect * Result A.

#[global] Instance Run_ret : MRet Run := fun A a => ([], Returned a).

#[global] Instance Run_bind : MBind Run := fun A B k c =>
  match c with
  | (saved, Returned a) => let '(saved', r) := k a in ((saved ++ saved')%list, r)
  | (saved, Raised e) => (saved, Raised e)
  end.

Definition raise {A : Type} (e : Exception) : Run A := ([], Raised e).

Definition tell (eff : Effect) : Run unit := ([eff], Returned ()).

(** [try: c  except <handled>: handler] *)
Definition try_except {A : Type} (c : Run A) (handler : Exception -> option (Run A)) : Run A :=
  match c with
  | (saved, Raised e) =>
      match handler e with
      | Some h => let '(saved', r) := h in ((saved ++ saved')%list, r)
      | None => (saved, Raised e)
      end
  | done => done
  end.

Definition effects {A : Type} (c : Run A) : list Effect := fst c.
Definition outcome {A : Type} (c : Run A) : Result A := snd c.

(** The names bound at the top level of the module: its imports, [User], its
    classes and its functions. A global name outside this list (and outside
    the builtins) raises [NameError] when it is read. *)
Definition module_globals : list string :=
  [ "OrderedDict"; "messages"; "get_user_model"; "login_required";
    "Count"; "Q"; "HttpResponseRedirect"; "get_object_or_404"; "redirect";
    "render"; "reverse"; "DetailView"; "ListView"; "Tag"; "TicketFilter";
    "AcceptTicketForm"; "AssignTicketForm"; "CloseTicketForm";
    "CommentTicketForm"; "FollowUp"; "Ticket"; "UserVoteLog"; "is_admin";
    "User"; "TagMixin"; "TagIndexView"; "TicketDetailView";
    "TicketListViewBase"; "get_ticket_filters"; "TicketListView";
    "TicketUpdateView"; "TicketCommentView" ].

Definition load_global (name : string) : Run unit :=
  if existsb (String.eqb name) module_globals then mret () else raise (NameError name).

(** [Ticket.objects.get(pk=pk)] *)
Definition objects_get (db : Database) (pk : Z) : Run Ticket :=
  match List.filter (fun t => ticket_id t =? pk) (ORM.Ticket_objects db) with
  | [] => raise DoesNotExist
  | [t] => mret t
  | _ => raise MultipleObjectsReturned
  end.

(** [django.shortcuts.get_object_or_404(Ticket, pk=pk)] *)
Definition get_object_or_404 (db : Database) (pk : Z) : Run Ticket :=
  try_except (objects_get db pk)
    (fun e => match e with DoesNotExist => Some (raise Http404) | _ => None end).

(** A model instance, and the user object of a request, are true in a
    condition. *)
Definition truthy_object {A : Type} (x : A) : bool := true.

(** A nullable foreign key ([ticket.assigned_to]) is true in a condition
    when it is set. *)
Definition truthy_related {A : Type} (x : option A) : bool :=
  match x with
  | Some _ => true
  | None => false
  end.

Definition bound_form (cls : FormClass) (data : gmap string string) (ticket : TicketInstance)
    (usr : option RequestUser) (action : option string) : Form :=
  {| form_class := cls; form_data := Some data; form_instance := ticket;
     form_user := usr; form_action := action |}.

Definition unbound_form (cls : FormClass) (ticket : TicketInstance)
    (usr : option RequestUser) (action : option string) : Form :=
  {| form_class := cls; form_data := None; form_instance := ticket;
     form_user := usr; form_action := action |}.

Module TicketDetailView.

Record Context := {
  context_ticket : Ticket;
  context_comments : list FollowUp;
  context_has_voted : bool
}.

Section get_context_data.
Context `{Externals}.

(** [object] is the ticket the generic detail view put in the context. *)
Definition get_context_data (db : Database) (request : HttpRequest) (object : Ticket)
    : Run Context :=
  let user := user request in
  let pk := ticket_id object in
  ticket ← objects_get db pk;
  let comments :=
    if is_admin user || user_eq user (submitted_by ticket) then
      ORM.followup_order_by_created_on_desc
        (ORM.filter_ticket__pk pk (FollowUp_all_comments db))
    else
      ORM.followup_order_by_created_on_desc
        (ORM.filter_ticket__pk pk (FollowUp_objects db)) in
  let has_voted :=
    if truthy_object ticket && truthy_object user then
      let voter_ids :=
        map vote_user_id
          (List.filter (fun v => vote_ticket v =? ticket_id ticket) (UserVoteLog_table db)) in
      match user with
      | AuthenticatedUser u => existsb (Z.eqb (user_id u)) voter_ids
      | AnonymousUser => false
      end
    else false in
  mret {| context_ticket := object; context_comments := comments;
          context_has_voted := has_voted |}.

End get_context_data.

End TicketDetailView.

(** ** Function views *)

Section function_views.
Context `{Externals}.

(** The [login_required] decorator: an anonymous request is sent to the
    login page and the view is not run. *)
Definition login_required (view : HttpRequest -> Run HttpResponse)
    (request : HttpRequest) : Run HttpResponse :=
  match user request with
  | AnonymousUser => mret (HttpResponseRedirect (login_redirect_url request))
  | AuthenticatedUser _ => view request
  end.

Definition TicketUpdateView_body (db : Database) (pk : option Z) (template_name : string)
    (request : HttpRequest) : Run HttpResponse :=
  guard ←
    Py.if_truthy_int pk
      (fun pk =>
         ticket ← get_object_or_404 db pk;
         if negb (user_eq (user request) (submitted_by ticket) || is_admin (user request))
         then mret (inl (HttpResponseRedirect (get_absolute_url ticket)))
         else mret (inr (Stored ticket)))
      (mret (inr (Unsaved (user request) "new")));
  match guard with
  | inl response => mret response
  | inr ticket =>
      if truthy_dict (POST request) then
        _ ← load_global "TicketForm";
        let form := bound_form TicketForm (POST request) ticket None None in
        if is_valid form then
          _ ← tell (FormSave form);
          let new_ticket := saved_instance form in
          mret (HttpResponseRedirect (get_absolute_url new_ticket))
        else
          mret (render request template_name
                  [("ticket", CtxTicket ticket); ("form", CtxForm form)])
      else
        _ ← load_global "TicketForm";
        let form := unbound_form TicketForm ticket None None in
        mret (render request template_name
                [("ticket", CtxTicket ticket); ("form", CtxForm form)])
  end.

Definition TicketUpdateView (db : Database) (request : HttpRequest) (pk : option Z)
    : Run HttpResponse :=
  login_required (TicketUpdateView_body db pk "tickets/ticket_form.html") request.

Definition in_closed_reopened (action : string) : bool :=
  String.eqb action "closed" || String.eqb action "reopened".

Definition TicketCommentView_body (db : Database) (pk : Z) (action : string)
    (request : HttpRequest) : Run HttpResponse :=
  found ←
    try_except (ticket ← objects_get db pk; mret (inr ticket))
      (fun e =>
         match e with
         | DoesNotExist =>
             let url := url_reverse "tickets:ticket_list" in
             Some (mret (inl (HttpResponseRedirect url)))
         | _ => None
         end);
  match found with
  | inl response => mret response
  | inr ticket =>
      if negb (is_admin (user request)) && negb (String.eqb action "comment") then
        mret (redirect (get_absolute_url ticket))
      else
        let template :=
          if in_closed_reopened action then "tickets/close_reopen_ticket_form.html"
          else "tickets/comment_form.html" in
        if truthy_dict (POST request) then
          let form :=
            if in_closed_reopened action then
              bound_form CloseTicketForm (POST request) (Stored ticket)
                (Some (user request)) (Some action)
            else if String.eqb action "comment" then
              bound_form CommentTicketForm (POST request) (Stored ticket)
                (Some (user request)) None
            else if String.eqb action "accept" then
              bound_form AcceptTicketForm (POST request) (Stored ticket)
                (Some (user request)) None
            else
              (* i.e. action==assign *)
              bound_form AssignTicketForm (POST request) (Stored ticket)
                (Some (user request)) None in
          if is_valid form then
            _ ← tell (FormSave form);
            mret (HttpResponseRedirect (get_absolute_url ticket))
          else
            let _ := render request template
                       [("form", CtxForm form); ("ticket", CtxTicket (Stored ticket));
                        ("action", CtxStr action)] in
            mret (render request template
                    [("form", CtxForm form); ("ticket", CtxTicket (Stored ticket));
                     ("action", CtxStr action)])
        else
          let '(form, action) :=
            if in_closed_reopened action then
              (unbound_form CloseTicketForm (Stored ticket) (Some (user request))
                 (Some action), action)
            else if String.eqb action "comment" then
              (unbound_form CommentTicketForm (Stored ticket) (Some (user request)) None,
               action)
            else if String.eqb action "accept" then
              (unbound_form AcceptTicketForm (Stored ticket) (Some (user request)) None,
               action)
            else
              let action :=
                if truthy_related (assigned_to ticket) && String.eqb action "assign"
                then "re-assign" else action in
              (unbound_form AssignTicketForm (Stored ticket) (Some (user request)) None,
               action) in
          mret (render request template
                  [("form", CtxForm form); ("ticket", CtxTicket (Stored ticket));
                   ("action", CtxStr action)])
  end.

Definition TicketCommentView (db : Database) (request : HttpRequest) (pk : Z)
    (action : string) : Run HttpResponse :=
  login_required (TicketCommentView_body db pk action) request.

End function_views.

(** ** A small installation, to run the views on *)

Module Sample.

Definition alice : User := {| user_id := 1; username := "alice" |}.
Definition bob : User := {| user_id := 2; username := "bob" |}.
Definition root : User := {| user_id := 3; username := "root" |}.

Definition ui : Tag := {| tag_id := 1; slug := "ui" |}.
Definition api : Tag := {| tag_id := 2; slug := "api" |}.

Definition login_bug : Ticket :=
  {| ticket_id := 1; title := "Login BUG"; description := "cannot sign in";
     status := "new"; ticket_type := "bug"; created_on := 10;
     submitted_by := alice; assigned_to := None; tags := [ui] |}.

Definition export_crash : Ticket :=
  {| ticket_id := 2; title := "Export crash"; description := "a bug in the export";
     status := "closed"; ticket_type := "bug"; created_on := 20;
     submitted_by := bob; assigned_to := Some root; tags := [ui; api] |}.

Definition dark_mode : Ticket :=
  {| ticket_id := 3; title := "Dark mode"; description := "please";
     status := "accepted"; ticket_type := "feature"; created_on := 30;
     submitted_by := alice; assigned_to := None; tags := [] |}.

Definition public_note : FollowUp :=
  {| followup_id := 1; followup_ticket := 1; followup_created_on := 11; private := false |}.
Definition private_note : FollowUp :=
  {| followup_id := 2; followup_ticket := 1; followup_created_on := 12; private := true |}.
Definition other_note : FollowUp :=
  {| followup_id := 3; followup_ticket := 2; followup_created_on := 21; private := false |}.

Definition db : Database :=
  {| Ticket_table := [login_bug; export_crash; dark_mode];
     FollowUp_table := [public_note; private_note; other_note];
     UserVoteLog_table := [{| vote_ticket := 1; vote_user_id := 3 |}] |}.

(** The default follow-up manager hides private comments; the filter set
    changes nothing; a bound form is valid when it carries a [comment]
    field. Who is an admin is left to the caller. *)
Definition externals_with_admin (admin : RequestUser -> bool) : Externals :=
  {| is_admin := admin;
     TicketFilter_qs := fun _ qs => qs;
     FollowUp_objects := fun d => List.filter (fun c => negb (private c)) (FollowUp_table d);
     FollowUp_all_comments := FollowUp_table;
     is_valid := fun f => match form_data f with
                          | Some d => bool_decide (is_Some (d !! "comment"))
                          | None => false
                          end;
     saved_instance := fun f => match form_instance f with
                                | Stored t => t
                                | Unsaved _ _ => dark_mode
                                end;
     get_absolute_url := fun t => "/tickets/" ++ title t ++ "/";
     url_reverse := fun name => if String.eqb name "tickets:ticket_list"
                                then "/tickets/" else "/";
     login_redirect_url := fun _ => "/accounts/login/" |}.

(** [root] is the only admin. *)
Definition externals : Externals :=
  externals_with_admin (fun u => match u with
                                 | AuthenticatedUser w => user_id w =? 3
                                 | AnonymousUser => false
                                 end).

Definition get_by (u : RequestUser) : HttpRequest :=
  {| user := u; GET := ∅; POST := ∅ |}.

Definition post_by (u : RequestUser) (data : gmap string string) : HttpRequest :=
  {| user := u; GET := ∅; POST := data |}.

Definition search_by (u : RequestUser) (q : string) : HttpRequest :=
  {| user := u; GET := {[ "q" := q ]}; POST := ∅ |}.

End Sample.

(** ** The vocabulary of the specification *)

(** [field] contains [q] when case is ignored: the lower-cased query is a
    factor of the lower-cased field. *)
Definition contains_ci (field q : string) : Prop :=
  exists pre post, Py.lower field = pre ++ Py.lower q ++ post.

(** The closed states of a ticket. *)
Definition is_closed_status (t : Ticket) : Prop :=
  status t = "closed" \/ status t = "split" \/ status t = "duplicate".

(** The tickets selected by status alone: the closed ones for [closed], the
    others for any other value, newest first. *)
Definition tickets_by_status (db : Database) (s : string) : list Ticket :=
  ORM.order_by_created_on_desc
    (List.filter
       (fun t => if String.eqb s "closed"
                 then ORM.status__in TicketListView.closed_codes t
                 else negb (ORM.status__in TicketListView.closed_codes t))
       (Ticket_table db)).

(** The tickets a search for [q] selects. *)
Definition matches_query (q : string) (t : Ticket) : bool :=
  ORM.icontains (description t) q || ORM.icontains (title t) q.

(** A request passes the ownership guard of the update view when no ticket
    is named, or the named ticket exists and the requester submitted it or
    is an admin. *)
Definition passes_ownership_guard `{Externals}
    (db : Database) (request : HttpRequest) (pk : option Z) : Prop :=
  Py.truthy_int pk = false
  \/ exists k ticket,
       pk = Some k /\ k <> 0
       /\ objects_get db k = ([], Returned ticket)
       /\ (user_eq (user request) (submitted_by ticket) = true
           \/ is_admin (user request) = true).

(** The form classes of the five actions. *)
Definition form_class_of_action (action : string) : option FormClass :=
  if String.eqb action "closed" then Some CloseTicketForm
  else if String.eqb action "reopened" then Some CloseTicketForm
  else if String.eqb action "comment" then Some CommentTicketForm
  else if String.eqb action "accept" then Some AcceptTicketForm
  else if String.eqb action "assign" then Some AssignTicketForm
  else None.

(** What the comment view does with a posted form: it saves a valid one and
    goes back to the ticket, and shows an invalid one again. *)
Definition posts_form `{Externals} (run : Run HttpResponse) (request : HttpRequest)
    (ticket : Ticket) (action : string) (form : Form) : Prop :=
  form_data form = Some (POST request)
  /\ form_instance form = Stored ticket
  /\ (if is_valid form
      then run = ([FormSave form],
                  Returned (HttpResponseRedirect (get_absolute_url ticket)))
      else exists template,
          run = ([], Returned (render request template
                                 [("form", CtxForm form);
                                  ("ticket", CtxTicket (Stored ticket));
                                  ("action", CtxStr action)]))).

(** ** The rest of the module: contexts of the list views

    The class-based views add entries to the template context the generic
    view built. A context is a dictionary from names to values. *)

Module PyStr.

Definition is_upper (c : ascii) : bool :=
  let n := nat_of_ascii c in ((65 <=? n)%nat && (n <=? 90)%nat)%bool.

Definition is_lower (c : ascii) : bool :=
  let n := nat_of_ascii c in ((97 <=? n)%nat && (n <=? 122)%nat)%bool.

Definition is_cased (c : ascii) : bool := is_upper c || is_lower c.

(** Upper case, on the ASCII letters. *)
Definition upper_ascii (c : ascii) : ascii :=
  if is_lower c then ascii_of_nat (nat_of_ascii c - 32) else c.

(** [str.title()]: a character after a cased one is put in lower case, any
    other in title case. *)
Fixpoint title_from (previous_is_cased : bool) (s : string) : string :=
  match s with
  | EmptyString => EmptyString
  | String c r =>
      String (if previous_is_cased then Py.lower_ascii c else upper_ascii c)
             (title_from (is_cased c) r)
  end.

Definition title (s : string) : string := title_from false s.

(** [s.replace(old, new)] where [old] and [new] are one character each. *)
Fixpoint replace (old new : ascii) (s : string) : string :=
  match s with
  | EmptyString => EmptyString
  | String c r =>
      String (if Ascii.eqb c old then new else c) (replace old new r)
  end.

(** [sorted(pairs, key=lambda x: x[0])] on integer keys: a stable sort. *)
Fixpoint insert_by_key {B : Type} (x : Z * B) (l : list (Z * B)) : list (Z * B) :=
  match l with
  | [] => [x]
  | y :: r => if fst x <=? fst y then x :: y :: r else y :: insert_by_key x r
  end.

Definition sorted_by_key {B : Type} (l : list (Z * B)) : list (Z * B) :=
  foldr insert_by_key [] l.

(** [{k: v for k, v in pairs}]: a later pair replaces an earlier one with the
    same key. *)
Definition dict_of_pairs (pairs : list (string * string)) : gmap string string :=
  foldl (fun d kv => <[ fst kv := snd kv ]> d) ∅ pairs.

End PyStr.

(** What a template context holds. *)
Inductive Value :=
| VNone
| VStr (s : string)
| VTag (g : Tag)
| VTags (gs : list Tag)
| VTagCounts (gs : list (Tag * nat))
| VFilters (fs : list (string * list (option string)))
| VGeneric (n : nat).

#[global] Instance User_eq_dec : EqDecision User.
Proof. solve_decision. Defined.

#[global] Instance Tag_eq_dec : EqDecision Tag.
Proof. solve_decision. Defined.

(** The constants of the ticket model ([Ticket.TICKET_STATUS_CHOICES] and
    the like, pairs of a stored value and a label; the priorities are keyed
    by integers) and the name of the application a ticket belongs to, which
    [.models] declares. *)
Class ModelChoices := {
  TICKET_STATUS_CHOICES : list (string * string);
  TICKET_PRIORITY_CHOICES : list (Z * string);
  TICKET_TYPE_CHOICES : list (string * string);
  application__application : Ticket -> option string
}.

(** The value of [tickets] when [TicketListView.get_queryset] reaches its
    last statement, the call of the filter set. *)
Definition get_queryset_tickets (db : Database) (request : HttpRequest)
    (kwargs : gmap string string) : list Ticket :=
  let q := GET request !! "q" in
  let username := kwargs !! "username" in
  let what := kwargs !! "what" in
  let ticket_type := kwargs !! "type" in
  let ticket_status := kwargs !! "status" in
  let tickets := ORM.order_by_created_on_desc (ORM.Ticket_objects db) in
  let tickets :=
    Py.if_truthy q
      (fun q => List.filter (fun t => ORM.icontains (description t) q
                                      || ORM.icontains (title t) q) tickets)
      tickets in
  let tickets :=
    Py.if_truthy username
      (fun username =>
         if Py.eq_str what "submitted_by" then
           List.filter (ORM.submitted_by__username username) tickets
         else if Py.eq_str what "assigned_to" then
           List.filter (ORM.assigned_to__username username) tickets
         else
           List.filter (fun t => ORM.submitted_by__username username t
                                 || ORM.assigned_to__username username t) tickets)
      tickets in
  let tickets :=
    Py.if_truthy ticket_type
      (fun ticket_type =>
         ORM.order_by_created_on_desc
           (List.filter (fun t => String.eqb (Models.ticket_type t) ticket_type) tickets))
      tickets in
  let tickets :=
    Py.if_truthy ticket_status
      (fun ticket_status =>
         if String.eqb ticket_status "closed" then
           ORM.order_by_created_on_desc
             (List.filter (ORM.status__in TicketListView.closed_codes)
                (ORM.Ticket_objects db))
         else
           ORM.order_by_created_on_desc
             (List.filter (fun t => negb (ORM.status__in TicketListView.closed_codes t))
                (ORM.Ticket_objects db)))
      tickets in
  tickets.

Module TagMixin.

(** [Tag.objects.filter(slug=tag_slug)]; the slug of a tag is never null, so
    the lookup of [None] finds nothing. *)
Definition filter_slug (tag_slug : option string) (tag_table : list Tag) : list Tag :=
  match tag_slug with
  | Some s => List.filter (fun g => String.eqb (slug g) s) tag_table
  | None => []
  end.

(** [.first()] of a query set without an order: the row with the least
    primary key, [None] when there is no row. *)
Definition first (qs : list Tag) : option Tag :=
  foldr (fun g best =>
           match best with
           | Some b => if tag_id g <=? tag_id b then Some g else Some b
           | None => Some g
           end) None qs.

Definition get_context_data (tag_table : list Tag) (kwargs : gmap string string)
    (super_context : gmap string Value) : gmap string Value :=
  let context := super_context in
  let tag_slug := kwargs !! "slug" in
  let context :=
    <[ "tag" := match first (filter_slug tag_slug tag_table) with
                | Some g => VTag g
                | None => VNone
                end ]> context in
  let context := <[ "tags" := VTags tag_table ]> context in
  context.

End TagMixin.

Section list_contexts.
Context `{ModelChoices}.

Definition get_ticket_filters (db : Database) : list (string * list (option string)) :=
  let values := TICKET_STATUS_CHOICES in
  let status := map (fun x => Some (fst x)) values in
  let values := PyStr.sorted_by_key TICKET_PRIORITY_CHOICES in
  let priority := map (fun x => Some (snd x)) values in
  let values := TICKET_TYPE_CHOICES in
  let ticket_types := map (fun x => Some (snd x)) values in
  let values := remove_dups (map application__application (ORM.Ticket_objects db)) in
  let applications := values in
  let values :=
    remove_dups (map (fun t => Some (username (Models.submitted_by t)))
                   (ORM.Ticket_objects db)) in
  let submitted_by := values in
  let values :=
    remove_dups (map (fun t => username <$> Models.assigned_to t)
                   (ORM.Ticket_objects db)) in
  let assigned_to := values in
  [ ("status", status);
    ("application", remove_dups applications);
    ("priority", priority);
    ("type", ticket_types);
    ("submitted_by", remove_dups submitted_by);
    ("assigned_to", remove_dups assigned_to) ].

Definition TicketListViewBase_get_context_data (db : Database) (tag_table : list Tag)
    (kwargs : gmap string string) (super_context : gmap string Value)
    : gmap string Value :=
  let context := TagMixin.get_context_data tag_table kwargs super_context in
  let context := <[ "filters" := VFilters (get_ticket_filters db) ]> context in
  context.

(** [Tag.objects.filter(ticket__id__in=object_list).annotate(count=Count("id"))]:
    the tag rows joined to the tickets whose key is in the list, grouped by
    tag, each with the number of its rows. *)
Definition related_tags (db : Database) (object_list : list Ticket) : list (Tag * nat) :=
  let ids := map ticket_id object_list in
  let rows :=
    flat_map tags
      (List.filter (fun t => existsb (Z.eqb (ticket_id t)) ids) (ORM.Ticket_objects db)) in
  map (fun g => (g, count_occ Tag_eq_dec rows g)) (remove_dups rows).

(** [object_list] is the query set the view lists ([self.object_list]). *)
Definition TicketListView_get_context_data (db : Database) (tag_table : list Tag)
    (request : HttpRequest) (kwargs : gmap string string) (object_list : list Ticket)
    (super_context : gmap string Value) : gmap string Value :=
  let context := TicketListViewBase_get_context_data db tag_table kwargs super_context in
  let ticket_type := kwargs !! "type" in
  let context :=
    Py.if_truthy ticket_type
      (fun ticket_type =>
         let choices := PyStr.dict_of_pairs TICKET_TYPE_CHOICES in
         <[ "type" := match choices !! ticket_type with
                      | Some label => VStr label
                      | None => VNone
                      end ]> context)
      context in
  let ticket_status := kwargs !! "status" in
  let context :=
    Py.if_truthy ticket_status
      (fun ticket_status => <[ "status" := VStr (PyStr.title ticket_status) ]> context)
      context in
  let username := kwargs !! "username" in
  let context :=
    Py.if_truthy username (fun username => <[ "username" := VStr username ]> context)
      context in
  let context :=
    <[ "query" := match GET request !! "q" with
                  | Some q => VStr q
                  | None => VNone
                  end ]> context in
  let what := kwargs !! "what" in
  let context :=
    Py.if_truthy what
      (fun what => <[ "what" := VStr (PyStr.replace "_" " " what) ]> context)
      context in
  let related_tags := related_tags db object_list in
  let context := <[ "related_tags" := VTagCounts related_tags ]> context in
  context.

End list_contexts.

Module Site.

Definition choices : ModelChoices :=
  {| TICKET_STATUS_CHOICES :=
       [("new", "New"); ("accepted", "Accepted"); ("closed", "Closed")];
     TICKET_PRIORITY_CHOICES := [(3, "Normal"); (1, "Critical"); (2, "High")];
     TICKET_TYPE_CHOICES := [("feature", "Feature Request"); ("bug", "Bug Report")];
     application__application :=
       fun t => if ticket_id t =? 3 then None else Some "tracker" |}.

Definition tag_table : list Tag :=
  [Sample.api; Sample.ui; {| tag_id := 3; slug := "docs" |}].

End Site.

(** The ticket [t] passes the user-name filter of the list: submitted by
    [name], assigned to [name], or either, as [what] says. *)
Definition username_selects (what : option string) (name : string) (t : Ticket) : bool :=
  if Py.eq_str what "submitted_by" then ORM.submitted_by__username name t
  else if Py.eq_str what "assigned_to" then ORM.assigned_to__username name t
  else ORM.submitted_by__username name t || ORM.assigned_to__username name t.

(** The ticket [t] passes every filter the request asks for through [q],
    [username] and [type]; a parameter that is absent or empty asks for
    nothing. *)
Definition selected_by_parameters (request : HttpRequest) (kwargs : gmap string string)
    (t : Ticket) : bool :=
  Py.if_truthy (GET request !! "q") (fun q => matches_query q t) true
  && Py.if_truthy (kwargs !! "username")
       (fun name => username_selects (kwargs !! "what") name t) true
  && Py.if_truthy (kwargs !! "type") (fun ty => String.eqb (ticket_type t) ty) true.

(** The ticket [t] bears the tag [g]. *)
Definition bears (g : Tag) (t : Ticket) : bool :=
  if in_dec Tag_eq_dec g (tags t) then true else false.

(** * Properties *)

(** ** Python conditions *)

Lemma if_truthy_false {A : Type} (o : option string) (yes : string -> A) (no : A) :
  Py.truthy o = false -> Py.if_truthy o yes no = no.
Proof.
  unfold Py.truthy, Py.if_truthy. destruct o as [s|]; [|reflexivity].
  intros ->. reflexivity.
Qed.

(** ** Containment of strings *)

Lemma append_String (c : ascii) (s t : string) :
  String c s ++ t = String c (s ++ t).
Proof. reflexivity. Qed.

Lemma prefix_spec (s1 s2 : string) :
  String.prefix s1 s2 = true <-> exists post, s2 = s1 ++ post.
Proof.
  revert s2. induction s1 as [|c s1 IH]; intros [|d s2]; simpl.
  - split; [intros _; exists ""; reflexivity | reflexivity].
  - split; [intros _; exists (String d s2); reflexivity | reflexivity].
  - split; [discriminate | intros [post Hp]; discriminate].
  - destruct (Ascii.ascii_dec c d) as [->|Hcd].
    + rewrite IH. split; intros [post Hp]; exists post;
        rewrite ?append_String in *; congruence.
    + split; [discriminate | intros [post Hp]; rewrite append_String in Hp; congruence].
Qed.

Lemma contains_empty (needle : string) :
  Py.contains needle "" = String.prefix needle "".
Proof. simpl. apply orb_false_r. Qed.

Lemma contains_String (needle : string) (c : ascii) (hay : string) :
  Py.contains needle (String c hay)
  = String.prefix needle (String c hay) || Py.contains needle hay.
Proof. reflexivity. Qed.

Lemma contains_spec (needle hay : string) :
  Py.contains needle hay = true <-> exists pre post, hay = pre ++ needle ++ post.
Proof.
  induction hay as [|c hay IH].
  - rewrite contains_empty, prefix_spec. split.
    + intros [post Hp]. exists "", post. exact Hp.
    + intros [pre [post Hp]]. destruct pre; [|discriminate].
      exists post. exact Hp.
  - rewrite contains_String, orb_true_iff, prefix_spec, IH. split.
    + intros [[post Hp] | [pre [post Hp]]].
      * exists "", post. exact Hp.
      * exists (String c pre), post. rewrite append_String. congruence.
    + intros [pre [post Hp]]. destruct pre as [|d pre].
      * left. exists post. exact Hp.
      * right. exists pre, post. rewrite append_String in Hp. congruence.
Qed.

Lemma icontains_spec (field q : string) :
  ORM.icontains field q = true <-> contains_ci field q.
Proof. unfold ORM.icontains, contains_ci. apply contains_spec. Qed.

(** ** Ordering of query sets *)

#[global] Instance created_desc_total : Total ORM.created_desc.
Proof. intros a b. unfold ORM.created_desc. lia. Qed.

#[global] Instance created_desc_trans : Transitive ORM.created_desc.
Proof. intros a b c. unfold ORM.created_desc. lia. Qed.

#[global] Instance followup_created_desc_total : Total ORM.followup_created_desc.
Proof. intros a b. unfold ORM.followup_created_desc. lia. Qed.

#[global] Instance followup_created_desc_trans : Transitive ORM.followup_created_desc.
Proof. intros a b c. unfold ORM.followup_created_desc. lia. Qed.

Lemma order_by_created_on_desc_sorted (qs : list Ticket) :
  StronglySorted ORM.created_desc (ORM.order_by_created_on_desc qs).
Proof. apply StronglySorted_merge_sort; apply _. Qed.

Lemma order_by_created_on_desc_perm (qs : list Ticket) :
  Permutation (ORM.order_by_created_on_desc qs) qs.
Proof. apply merge_sort_Permutation. Qed.

Lemma In_order_by_created_on_desc (qs : list Ticket) (t : Ticket) :
  In t (ORM.order_by_created_on_desc qs) <-> In t qs.
Proof.
  split; apply Permutation_in;
    [ | symmetry ]; apply order_by_created_on_desc_perm.
Qed.

Lemma followup_order_sorted (qs : list FollowUp) :
  StronglySorted ORM.followup_created_desc (ORM.followup_order_by_created_on_desc qs).
Proof. apply StronglySorted_merge_sort; apply _. Qed.

Lemma followup_order_perm (qs : list FollowUp) :
  Permutation (ORM.followup_order_by_created_on_desc qs) qs.
Proof. apply merge_sort_Permutation. Qed.

Lemma StronglySorted_filter {A : Type} (R : A -> A -> Prop) (f : A -> bool) (l : list A) :
  StronglySorted R l -> StronglySorted R (List.filter f l).
Proof.
  induction 1 as [|a l Hl IH Ha]; simpl; [constructor|].
  destruct (f a); [|exact IH].
  constructor; [exact IH|].
  rewrite List.Forall_forall in *. intros x Hx. apply Ha.
  apply filter_In in Hx. tauto.
Qed.

Lemma Permutation_filter_bool {A : Type} (f : A -> bool) (l l' : list A) :
  Permutation l l' -> Permutation (List.filter f l) (List.filter f l').
Proof.
  induction 1 as [|x l l' _ IH|x y l|l l' l'' _ IH1 _ IH2]; simpl.
  - constructor.
  - destruct (f x); [constructor|]; exact IH.
  - destruct (f x), (f y); try reflexivity. constructor.
  - etransitivity; eassumption.
Qed.

Lemma status__in_closed_codes (t : Ticket) :
  ORM.status__in TicketListView.closed_codes t = true
  <-> status t = "closed" \/ status t = "split" \/ status t = "duplicate".
Proof.
  unfold ORM.status__in, TicketListView.closed_codes. simpl.
  rewrite !orb_true_iff, !String.eqb_eq. intuition discriminate.
Qed.

(** ** The tag index *)

Lemma In_filter_tags__slug (s : string) (qs : list Ticket) (t : Ticket) :
  In t (ORM.filter_tags__slug s qs)
  <-> In t qs /\ exists g, In g (tags t) /\ slug g = s.
Proof.
  unfold ORM.filter_tags__slug. rewrite in_flat_map. split.
  - intros [x [Hx Hm]]. apply in_map_iff in Hm as [g [<- Hg]].
    apply filter_In in Hg as [Hg He]. apply String.eqb_eq in He. eauto.
  - intros [Ht [g [Hg Hs]]]. exists t. split; [exact Ht|].
    apply in_map_iff. exists g. split; [reflexivity|].
    apply filter_In. split; [exact Hg|]. apply String.eqb_eq. exact Hs.
Qed.

Lemma firstn_plus {A : Type} (a b : nat) (l : list A) :
  firstn (a + b) l = (firstn a l ++ firstn b (skipn a l))%list.
Proof.
  revert l. induction a as [|a IH]; intros l; [reflexivity|].
  destruct l as [|x l]; simpl.
  - destruct b; reflexivity.
  - f_equal. apply IH.
Qed.

Lemma page_length (qs : list Ticket) (number : nat) :
  (length (TagIndexView.page qs number) <= 50)%nat.
Proof. unfold TagIndexView.page. apply firstn_le_length. Qed.

Lemma page_S (qs : list Ticket) (k : nat) :
  TagIndexView.page qs (S k) = firstn 50 (skipn (k * 50) qs).
Proof.
  unfold TagIndexView.page, TagIndexView.paginate_by.
  do 2 f_equal. lia.
Qed.

Lemma pages_concat (qs : list Ticket) (k : nat) :
  concat (map (TagIndexView.page qs) (seq 1 k)) = firstn (k * 50) qs.
Proof.
  induction k as [|k IH]; [reflexivity|].
  rewrite seq_S, map_app, concat_app, IH.
  change (1 + k)%nat with (S k). simpl concat.
  rewrite app_nil_r, page_S.
  replace (S k * 50)%nat with (k * 50 + 50)%nat by lia.
  symmetry. apply firstn_plus.
Qed.

(** C8. For every tag slug, the query set of [TagIndexView] holds exactly
    the tickets that bear a tag with that slug, and the view pages them 50
    to a page: [paginate_by] is 50, no page is longer, and the first [k]
    pages together are the first [50 * k] rows of the query set. *)
Theorem TagIndexView_lists_tagged_tickets
    (db : Database) (kwargs : gmap string string) (s : string) :
  kwargs !! "slug" = Some s ->
  (forall t, In t (TagIndexView.get_queryset db kwargs)
             <-> In t (Ticket_table db) /\ exists g, In g (tags t) /\ slug g = s)
  /\ TagIndexView.paginate_by = 50%nat
  /\ (forall number,
        (length (TagIndexView.page (TagIndexView.get_queryset db kwargs) number) <= 50)%nat)
  /\ (forall k,
        concat (map (TagIndexView.page (TagIndexView.get_queryset db kwargs)) (seq 1 k))
        = firstn (k * 50) (TagIndexView.get_queryset db kwargs)).
Proof.
  intros Hslug. unfold TagIndexView.get_queryset. rewrite Hslug.
  split; [|split; [|split]].
  - intros t. apply In_filter_tags__slug.
  - reflexivity.
  - intros number. apply page_length.
  - intros k. apply pages_concat.
Qed.

Lemma TagIndexView_lists_tagged_tickets_witness :
  In Sample.export_crash (TagIndexView.get_queryset Sample.db {[ "slug" := "api" ]})
  <-> In Sample.export_crash (Ticket_table Sample.db)
      /\ exists g, In g (tags Sample.export_crash) /\ slug g = "api".
Proof.
  exact (proj1 (TagIndexView_lists_tagged_tickets
                  Sample.db {[ "slug" := "api" ]} "api" eq_refl)
               Sample.export_crash).
Defined.

(** ** The ticket list *)

Lemma In_tickets_by_status (db : Database) (s : string) (t : Ticket) :
  In t (tickets_by_status db s)
  <-> In t (Ticket_table db)
      /\ (s = "closed" -> is_closed_status t)
      /\ (s <> "closed" -> ~ is_closed_status t).
Proof.
  unfold tickets_by_status, is_closed_status.
  rewrite In_order_by_created_on_desc, filter_In.
  destruct (String.eqb_spec s "closed") as [->|Hs].
  - rewrite status__in_closed_codes. tauto.
  - rewrite negb_true_iff, <- not_true_iff_false, status__in_closed_codes. tauto.
Qed.

(** C6. Whenever the [status] URL parameter is present (and not empty, the
    test [if ticket_status:] makes), [get_queryset] hands the filter set the
    tickets selected by status alone -- those in a closed state when the
    parameter is [closed], the others otherwise, newest first -- whatever the
    search query, the user name, [what] and the ticket type are. *)
Theorem status_parameter_discards_earlier_filters `{Externals}
    (db : Database) (request : HttpRequest) (kwargs : gmap string string) (s : string) :
  kwargs !! "status" = Some s -> s <> "" ->
  TicketListView.get_queryset db request kwargs
  = TicketFilter_qs (GET request) (tickets_by_status db s)
  /\ (forall t, In t (tickets_by_status db s)
                <-> In t (Ticket_table db)
                    /\ (s = "closed" -> is_closed_status t)
                    /\ (s <> "closed" -> ~ is_closed_status t))
  /\ StronglySorted ORM.created_desc (tickets_by_status db s)
  /\ (forall kwargs' : gmap string string,
        kwargs' !! "status" = Some s ->
        TicketListView.get_queryset db request kwargs'
        = TicketListView.get_queryset db request kwargs).
Proof.
  intros Hstatus Hs.
  assert (Hrebuilt : forall kw : gmap string string,
             kw !! "status" = Some s ->
             TicketListView.get_queryset db request kw
             = TicketFilter_qs (GET request) (tickets_by_status db s)).
  { intros kw Hkw. unfold TicketListView.get_queryset. rewrite Hkw.
    unfold Py.if_truthy at 1.
    destruct (String.eqb_spec s "") as [|_]; [contradiction|].
    simpl negb. cbv iota. unfold tickets_by_status, ORM.Ticket_objects.
    destruct (String.eqb s "closed"); reflexivity. }
  split; [apply Hrebuilt; exact Hstatus|].
  split; [apply In_tickets_by_status|].
  split; [apply order_by_created_on_desc_sorted|].
  intros kwargs' Hkw. rewrite (Hrebuilt kwargs' Hkw), (Hrebuilt kwargs Hstatus).
  reflexivity.
Qed.

Lemma status_parameter_discards_earlier_filters_witness :
  @TicketListView.get_queryset Sample.externals Sample.db
    (Sample.search_by AnonymousUser "dark")
    (<[ "username" := "alice" ]> {[ "status" := "closed" ]})
  = @TicketFilter_qs Sample.externals
      (GET (Sample.search_by AnonymousUser "dark"))
      (tickets_by_status Sample.db "closed").
Proof.
  refine (proj1 (@status_parameter_discards_earlier_filters Sample.externals
                   Sample.db (Sample.search_by AnonymousUser "dark")
                   (<[ "username" := "alice" ]> {[ "status" := "closed" ]})
                   "closed" _ _)).
  - reflexivity.
  - discriminate.
Defined.

Lemma matches_query_spec (q : string) (t : Ticket) :
  matches_query q t = true <-> contains_ci (title t) q \/ contains_ci (description t) q.
Proof.
  unfold matches_query. rewrite orb_true_iff, !icontains_spec. tauto.
Qed.

(** C7, as the code has it. For every request that carries a non-empty
    search query [q] and no status, user name or ticket type parameter, the
    query set handed to the filter set (whose result the view lists) holds
    exactly the tickets whose title or description contains [q] when case is
    ignored, each as often as the table has it, newest first. *)
Theorem search_query_selects_title_or_description `{Externals}
    (db : Database) (request : HttpRequest) (kwargs : gmap string string) (q : string) :
  GET request !! "q" = Some q -> q <> "" ->
  Py.truthy (kwargs !! "status") = false ->
  Py.truthy (kwargs !! "username") = false ->
  Py.truthy (kwargs !! "type") = false ->
  exists tickets,
    TicketListView.get_queryset db request kwargs = TicketFilter_qs (GET request) tickets
    /\ (forall t, In t tickets
                  <-> In t (Ticket_table db)
                      /\ (contains_ci (title t) q \/ contains_ci (description t) q))
    /\ Permutation tickets (List.filter (matches_query q) (Ticket_table db))
    /\ StronglySorted ORM.created_desc tickets.
Proof.
  intros Hq Hne Hstatus Husername Htype.
  exists (List.filter (matches_query q)
            (ORM.order_by_created_on_desc (ORM.Ticket_objects db))).
  split; [|split; [|split]].
  - unfold TicketListView.get_queryset.
    rewrite (if_truthy_false (kwargs !! "status")) by exact Hstatus.
    rewrite (if_truthy_false (kwargs !! "type")) by exact Htype.
    rewrite (if_truthy_false (kwargs !! "username")) by exact Husername.
    rewrite Hq. unfold Py.if_truthy.
    destruct (String.eqb_spec q "") as [|_]; [contradiction|].
    reflexivity.
  - intros t. rewrite filter_In, In_order_by_created_on_desc, matches_query_spec.
    reflexivity.
  - apply Permutation_filter_bool, order_by_created_on_desc_perm.
  - apply StronglySorted_filter, order_by_created_on_desc_sorted.
Qed.

Lemma search_query_selects_title_or_description_witness :
  exists tickets,
    @TicketListView.get_queryset Sample.externals Sample.db
      (Sample.search_by AnonymousUser "bug") ∅
    = @TicketFilter_qs Sample.externals (GET (Sample.search_by AnonymousUser "bug")) tickets
    /\ (forall t, In t tickets
                  <-> In t (Ticket_table Sample.db)
                      /\ (contains_ci (title t) "bug" \/ contains_ci (description t) "bug"))
    /\ Permutation tickets (List.filter (matches_query "bug") (Ticket_table Sample.db))
    /\ StronglySorted ORM.created_desc tickets.
Proof.
  refine (@search_query_selects_title_or_description Sample.externals
            Sample.db (Sample.search_by AnonymousUser "bug") ∅ "bug" _ _ _ _ _).
  - reflexivity.
  - discriminate.
  - reflexivity.
  - reflexivity.
  - reflexivity.
Defined.

(** C7, as stated, fails: a search for [bug] on the page of [bob]'s tickets
    carries a query and no status parameter, the ticket [login_bug] has the
    query in its title, and the list leaves it out, also when the filter set
    changes nothing. *)
Lemma search_query_narrowed_by_username :
  GET (Sample.search_by AnonymousUser "bug") !! "q" = Some "bug"
  /\ ({[ "username" := "bob" ]} : gmap string string) !! "status" = None
  /\ In Sample.login_bug (Ticket_table Sample.db)
  /\ ORM.icontains (title Sample.login_bug) "bug" = true
  /\ ~ In Sample.login_bug
       (@TicketListView.get_queryset Sample.externals Sample.db
          (Sample.search_by AnonymousUser "bug") {[ "username" := "bob" ]}).
Proof.
  split; [reflexivity|]. split; [reflexivity|].
  split; [left; reflexivity|]. split; [reflexivity|].
  vm_compute. intros [Heq | []]. discriminate Heq.
Qed.

(** ** Looking a ticket up *)

Lemma objects_get_Returned (db : Database) (pk : Z) (t : Ticket) :
  objects_get db pk = ([], Returned t) -> In t (Ticket_table db) /\ ticket_id t = pk.
Proof.
  unfold objects_get, ORM.Ticket_objects.
  destruct (List.filter _ _) as [|x [|y l]] eqn:Hf; try discriminate.
  intros [= ->].
  assert (Hin : In t (List.filter (fun t0 => ticket_id t0 =? pk) (Ticket_table db)))
    by (rewrite Hf; left; reflexivity).
  apply filter_In in Hin as [Hin Hid]. split; [exact Hin | lia].
Qed.

Lemma objects_get_missing (db : Database) (pk : Z) :
  (forall t, In t (Ticket_table db) -> ticket_id t <> pk) ->
  objects_get db pk = ([], Raised DoesNotExist).
Proof.
  intros Hnone. unfold objects_get, ORM.Ticket_objects.
  destruct (List.filter _ _) as [|x l] eqn:Hf; [reflexivity|].
  assert (Hin : In x (List.filter (fun t0 => ticket_id t0 =? pk) (Ticket_table db)))
    by (rewrite Hf; left; reflexivity).
  apply filter_In in Hin as [Hin Hid]. apply Hnone in Hin. lia.
Qed.

Lemma load_global_TicketForm :
  load_global "TicketForm" = ([], Raised (NameError "TicketForm")).
Proof. reflexivity. Qed.

(** ** The detail view *)

Lemma In_filter_ticket__pk (pk : Z) (qs : list FollowUp) (c : FollowUp) :
  In c (ORM.filter_ticket__pk pk qs) <-> In c qs /\ followup_ticket c = pk.
Proof. unfold ORM.filter_ticket__pk. rewrite filter_In, Z.eqb_eq. reflexivity. Qed.

Lemma In_followup_order (qs : list FollowUp) (c : FollowUp) :
  In c (ORM.followup_order_by_created_on_desc qs) <-> In c qs.
Proof.
  split; apply Permutation_in; [ | symmetry ]; apply followup_order_perm.
Qed.

(** The comments of the detail page: which manager is read depends on the
    role and on the ownership of the ticket. *)
Lemma get_context_data_comments `{Externals}
    (db : Database) (request : HttpRequest) (object ticket : Ticket) :
  objects_get db (ticket_id object) = ([], Returned ticket) ->
  exists context,
    TicketDetailView.get_context_data db request object = ([], Returned context)
    /\ TicketDetailView.context_comments context
       = ORM.followup_order_by_created_on_desc
           (ORM.filter_ticket__pk (ticket_id object)
              (if is_admin (user request) || user_eq (user request) (submitted_by ticket)
               then FollowUp_all_comments db else FollowUp_objects db)).
Proof.
  intros Hget. unfold TicketDetailView.get_context_data. rewrite Hget.
  eexists. split; [reflexivity|]. simpl.
  destruct (is_admin (user request) || user_eq (user request) (submitted_by ticket));
    reflexivity.
Qed.

(** C5. In the detail view, with [all_comments] the manager of every
    follow-up and the default manager that of the public ones: the comments
    put in the context are ordered by creation time, newest first; for an
    admin or the submitter of the ticket they are all follow-ups of the
    ticket, private ones included; for any other user they are the public
    follow-ups of the ticket, so none of them is private. *)
Theorem TicketDetailView_comments_by_role `{Externals}
    (db : Database) (request : HttpRequest) (object ticket : Ticket) :
  objects_get db (ticket_id object) = ([], Returned ticket) ->
  FollowUp_all_comments db = FollowUp_table db ->
  FollowUp_objects db = List.filter (fun c => negb (private c)) (FollowUp_table db) ->
  exists context,
    TicketDetailView.get_context_data db request object = ([], Returned context)
    /\ StronglySorted ORM.followup_created_desc (TicketDetailView.context_comments context)
    /\ (is_admin (user request) = true
        \/ user_eq (user request) (submitted_by ticket) = true ->
        forall c, In c (TicketDetailView.context_comments context)
                  <-> In c (FollowUp_table db) /\ followup_ticket c = ticket_id ticket)
    /\ (is_admin (user request) = false ->
        user_eq (user request) (submitted_by ticket) = false ->
        (forall c, In c (TicketDetailView.context_comments context)
                   <-> In c (FollowUp_table db) /\ followup_ticket c = ticket_id ticket
                       /\ private c = false)
        /\ forall c, In c (TicketDetailView.context_comments context) -> private c = false).
Proof.
  intros Hget Hall Hpublic.
  destruct (get_context_data_comments db request object ticket Hget)
    as [context [Hrun Hcomments]].
  destruct (objects_get_Returned _ _ _ Hget) as [_ Hid].
  exists context. split; [exact Hrun|]. rewrite Hcomments, <- Hid. split; [|split].
  - apply followup_order_sorted.
  - intros Hrole c.
    assert (Hb : is_admin (user request) || user_eq (user request) (submitted_by ticket) = true)
      by (apply orb_true_iff; exact Hrole).
    rewrite Hb, Hall, In_followup_order, In_filter_ticket__pk. reflexivity.
  - intros Hadmin Howner. rewrite Hadmin, Howner. simpl orb. cbv iota.
    assert (Hiff : forall c,
               In c (ORM.followup_order_by_created_on_desc
                       (ORM.filter_ticket__pk (ticket_id ticket) (FollowUp_objects db)))
               <-> In c (FollowUp_table db) /\ followup_ticket c = ticket_id ticket
                   /\ private c = false).
    { intros c. rewrite Hpublic, In_followup_order, In_filter_ticket__pk, filter_In,
        negb_true_iff. tauto. }
    split; [exact Hiff|]. intros c Hc. apply Hiff in Hc. tauto.
Qed.

Lemma TicketDetailView_comments_by_role_witness :
  exists context,
    @TicketDetailView.get_context_data Sample.externals Sample.db
      (Sample.get_by (AuthenticatedUser Sample.bob)) Sample.login_bug
    = ([], Returned context)
    /\ forall c, In c (TicketDetailView.context_comments context) -> private c = false.
Proof.
  destruct (@TicketDetailView_comments_by_role Sample.externals Sample.db
              (Sample.get_by (AuthenticatedUser Sample.bob))
              Sample.login_bug Sample.login_bug eq_refl eq_refl eq_refl)
    as [context [Hrun [_ [_ Hother]]]].
  exists context. split; [exact Hrun|].
  exact (proj2 (Hother eq_refl eq_refl)).
Defined.

(** ** The function views *)

Lemma get_object_or_404_Returned (db : Database) (pk : Z) (t : Ticket) :
  objects_get db pk = ([], Returned t) -> get_object_or_404 db pk = ([], Returned t).
Proof. intros Hget. unfold get_object_or_404. rewrite Hget. reflexivity. Qed.

Lemma get_object_or_404_missing (db : Database) (pk : Z) :
  (forall t, In t (Ticket_table db) -> ticket_id t <> pk) ->
  get_object_or_404 db pk = ([], Raised Http404).
Proof.
  intros Hnone. unfold get_object_or_404.
  rewrite (objects_get_missing db pk Hnone). reflexivity.
Qed.

(** The update view once its guard has let a ticket instance through: both
    branches read the global [TicketForm] first. *)
Lemma TicketUpdateView_reads_TicketForm `{Externals}
    (db : Database) (request : HttpRequest) (pk : option Z) (template_name : string)
    (instance : TicketInstance) :
  Py.if_truthy_int pk
    (fun pk =>
       ticket ← get_object_or_404 db pk;
       if negb (user_eq (user request) (submitted_by ticket) || is_admin (user request))
       then mret (inl (HttpResponseRedirect (get_absolute_url ticket)))
       else mret (inr (Stored ticket)))
    (mret (inr (Unsaved (user request) "new")))
  = ([], Returned (inr instance)) ->
  TicketUpdateView_body db pk template_name request
  = ([], Raised (NameError "TicketForm")).
Proof.
  intros Hguard. unfold TicketUpdateView_body. rewrite Hguard.
  destruct (truthy_dict (POST request)); reflexivity.
Qed.

(** C2. [TicketForm] is not a name of the module, and every logged-in
    request to [TicketUpdateView] that passes the ownership guard -- GET or
    POST -- ends in [NameError] for that name: nothing is saved and no page
    or redirect is returned. *)
Theorem TicketUpdateView_raises_NameError `{Externals}
    (db : Database) (request : HttpRequest) (pk : option Z) (u : User) :
  user request = AuthenticatedUser u ->
  passes_ownership_guard db request pk ->
  existsb (String.eqb "TicketForm") module_globals = false
  /\ TicketUpdateView db request pk = ([], Raised (NameError "TicketForm"))
  /\ forall response, outcome (TicketUpdateView db request pk) <> Returned response.
Proof.
  intros Huser Hguard.
  assert (Hrun : TicketUpdateView db request pk = ([], Raised (NameError "TicketForm"))).
  { unfold TicketUpdateView, login_required. rewrite Huser.
    destruct Hguard as [Hfalsy | [k [ticket [-> [Hk [Hget Hown]]]]]].
    - apply TicketUpdateView_reads_TicketForm with (instance := Unsaved (user request) "new").
      destruct pk as [k|]; [|reflexivity].
      simpl in Hfalsy. unfold Py.if_truthy_int. rewrite Hfalsy. reflexivity.
    - apply TicketUpdateView_reads_TicketForm with (instance := Stored ticket).
      unfold Py.if_truthy_int.
      destruct (Z.eqb_spec k 0) as [|_]; [contradiction|]. simpl negb. cbv iota.
      rewrite (get_object_or_404_Returned db k ticket Hget).
      assert (Hb : user_eq (user request) (submitted_by ticket) || is_admin (user request)
                   = true) by (apply orb_true_iff; exact Hown).
      simpl. rewrite Hb. reflexivity. }
  split; [reflexivity|]. split; [exact Hrun|].
  intros response. rewrite Hrun. discriminate.
Qed.

Lemma TicketUpdateView_raises_NameError_witness :
  @TicketUpdateView Sample.externals Sample.db
    (Sample.post_by (AuthenticatedUser Sample.alice) {[ "title" := "Login bug" ]}) (Some 1)
  = ([], Raised (NameError "TicketForm")).
Proof.
  refine (proj1 (proj2 (@TicketUpdateView_raises_NameError Sample.externals Sample.db
            (Sample.post_by (AuthenticatedUser Sample.alice) {[ "title" := "Login bug" ]})
            (Some 1) Sample.alice eq_refl _))).
  right. exists 1, Sample.login_bug.
  split; [reflexivity|]. split; [discriminate|]. split; [reflexivity|].
  left. reflexivity.
Defined.

(** The two error paths the views do handle: a comment on a ticket that
    does not exist goes back to the ticket list, and an update of one ends
    in the framework's 404. *)
Lemma TicketCommentView_missing_ticket `{Externals}
    (db : Database) (request : HttpRequest) (pk : Z) (action : string) (u : User) :
  user request = AuthenticatedUser u ->
  (forall t, In t (Ticket_table db) -> ticket_id t <> pk) ->
  TicketCommentView db request pk action
  = ([], Returned (HttpResponseRedirect (url_reverse "tickets:ticket_list"))).
Proof.
  intros Huser Hnone. unfold TicketCommentView, login_required. rewrite Huser.
  unfold TicketCommentView_body. rewrite (objects_get_missing db pk Hnone).
  reflexivity.
Qed.

Lemma TicketUpdateView_missing_ticket `{Externals}
    (db : Database) (request : HttpRequest) (pk : Z) (u : User) :
  user request = AuthenticatedUser u -> pk <> 0 ->
  (forall t, In t (Ticket_table db) -> ticket_id t <> pk) ->
  TicketUpdateView db request (Some pk) = ([], Raised Http404).
Proof.
  intros Huser Hpk Hnone. unfold TicketUpdateView, login_required. rewrite Huser.
  unfold TicketUpdateView_body, Py.if_truthy_int.
  destruct (Z.eqb_spec pk 0) as [|_]; [contradiction|]. simpl negb. cbv iota.
  rewrite (get_object_or_404_missing db pk Hnone). reflexivity.
Qed.

(** C1, where the code departs from it. A logged-in user who opens the page
    for a new ticket gets neither a form nor a redirect: the view raises
    [NameError], an exception of its own that nothing handles. The two error
    paths the views do handle behave as stated: a comment on ticket 7, which
    does not exist, goes back to the ticket list, and an update of it ends
    in the 404 of the framework. *)
Theorem TicketUpdateView_new_ticket_page_raises :
  @TicketUpdateView Sample.externals Sample.db
    (Sample.get_by (AuthenticatedUser Sample.alice)) None
  = ([], Raised (NameError "TicketForm"))
  /\ @TicketCommentView Sample.externals Sample.db
       (Sample.get_by (AuthenticatedUser Sample.alice)) 7 "comment"
     = ([], Returned (HttpResponseRedirect
                        (@url_reverse Sample.externals "tickets:ticket_list")))
  /\ @TicketUpdateView Sample.externals Sample.db
       (Sample.get_by (AuthenticatedUser Sample.alice)) (Some 7)
     = ([], Raised Http404).
Proof.
  split; [reflexivity|]. split.
  - apply (@TicketCommentView_missing_ticket Sample.externals) with (u := Sample.alice);
      [reflexivity|].
    intros t [<- | [<- | [<- | []]]]; discriminate.
  - apply (@TicketUpdateView_missing_ticket Sample.externals) with (u := Sample.alice);
      [reflexivity | discriminate |].
    intros t [<- | [<- | [<- | []]]]; discriminate.
Qed.

(** ** Who may do what *)

Lemma login_required_anonymous `{Externals}
    (view : HttpRequest -> Run HttpResponse) (request : HttpRequest) :
  user request = AnonymousUser ->
  login_required view request
  = ([], Returned (HttpResponseRedirect (login_redirect_url request))).
Proof. intros Huser. unfold login_required. rewrite Huser. reflexivity. Qed.

Lemma login_required_authenticated `{Externals}
    (view : HttpRequest -> Run HttpResponse) (request : HttpRequest) (u : User) :
  user request = AuthenticatedUser u ->
  login_required view request = view request.
Proof. intros Huser. unfold login_required. rewrite Huser. reflexivity. Qed.

Lemma TicketCommentView_not_admin `{Externals}
    (db : Database) (request : HttpRequest) (pk : Z) (action : string)
    (ticket : Ticket) (u : User) :
  user request = AuthenticatedUser u ->
  objects_get db pk = ([], Returned ticket) ->
  is_admin (user request) = false -> action <> "comment" ->
  TicketCommentView db request pk action
  = ([], Returned (HttpResponseRedirect (get_absolute_url ticket))).
Proof.
  intros Huser Hget Hadmin Haction.
  unfold TicketCommentView, login_required. rewrite Huser.
  unfold TicketCommentView_body. rewrite Hget. simpl. rewrite Hadmin.
  destruct (String.eqb_spec action "comment") as [|_]; [contradiction|].
  reflexivity.
Qed.

Lemma TicketUpdateView_not_owner `{Externals}
    (db : Database) (request : HttpRequest) (pk : Z) (ticket : Ticket) (u : User) :
  user request = AuthenticatedUser u ->
  objects_get db pk = ([], Returned ticket) ->
  pk <> 0 ->
  is_admin (user request) = false ->
  user_eq (user request) (submitted_by ticket) = false ->
  TicketUpdateView db request (Some pk)
  = ([], Returned (HttpResponseRedirect (get_absolute_url ticket))).
Proof.
  intros Huser Hget Hpk Hadmin Howner.
  unfold TicketUpdateView, login_required. rewrite Huser.
  unfold TicketUpdateView_body, Py.if_truthy_int.
  destruct (Z.eqb_spec pk 0) as [|_]; [contradiction|]. simpl negb. cbv iota.
  rewrite (get_object_or_404_Returned db pk ticket Hget). simpl.
  rewrite Hadmin, Howner. reflexivity.
Qed.

(** C3, as the code has it. Only authentication is left to the framework:
    [login_required] sends an anonymous request for either function view to
    the login page. Role and ownership are tested by the views themselves:
    [TicketCommentView] sends a logged-in user who is not an admin back to
    the ticket for every action but [comment]; [TicketUpdateView] sends a
    logged-in user who is neither the submitter of the ticket nor an admin
    back to the ticket; [TicketDetailView] reads the follow-ups from
    [all_comments] for an admin or the submitter and from the default
    manager for anyone else. *)
Theorem views_test_role_and_ownership `{Externals}
    (db : Database) (request : HttpRequest) (pk : Z) (action : string)
    (ticket : Ticket) (u : User) :
  user request = AuthenticatedUser u ->
  objects_get db pk = ([], Returned ticket) ->
  (is_admin (user request) = false -> action <> "comment" ->
   TicketCommentView db request pk action
   = ([], Returned (HttpResponseRedirect (get_absolute_url ticket))))
  /\ (pk <> 0 -> is_admin (user request) = false ->
      user_eq (user request) (submitted_by ticket) = false ->
      TicketUpdateView db request (Some pk)
      = ([], Returned (HttpResponseRedirect (get_absolute_url ticket))))
  /\ (exists context,
        TicketDetailView.get_context_data db request ticket = ([], Returned context)
        /\ TicketDetailView.context_comments context
           = ORM.followup_order_by_created_on_desc
               (ORM.filter_ticket__pk (ticket_id ticket)
                  (if is_admin (user request) || user_eq (user request) (submitted_by ticket)
                   then FollowUp_all_comments db else FollowUp_objects db)))
  /\ (forall anonymous : HttpRequest,
        user anonymous = AnonymousUser ->
        TicketCommentView db anonymous pk action
        = ([], Returned (HttpResponseRedirect (login_redirect_url anonymous)))
        /\ TicketUpdateView db anonymous (Some pk)
           = ([], Returned (HttpResponseRedirect (login_redirect_url anonymous)))).
Proof.
  intros Huser Hget. split; [|split; [|split]].
  - intros Hadmin Haction. eapply TicketCommentView_not_admin; eassumption.
  - intros Hpk Hadmin Howner. eapply TicketUpdateView_not_owner; eassumption.
  - apply get_context_data_comments.
    destruct (objects_get_Returned db pk ticket Hget) as [_ ->]. exact Hget.
  - intros anonymous Hanon. split; apply login_required_anonymous; exact Hanon.
Qed.

Lemma views_test_role_and_ownership_witness :
  @TicketCommentView Sample.externals Sample.db
    (Sample.get_by (AuthenticatedUser Sample.bob)) 1 "accept"
  = ([], Returned (HttpResponseRedirect
                     (@get_absolute_url Sample.externals Sample.login_bug)))
  /\ @TicketUpdateView Sample.externals Sample.db
       (Sample.get_by (AuthenticatedUser Sample.bob)) (Some 1)
     = ([], Returned (HttpResponseRedirect
                        (@get_absolute_url Sample.externals Sample.login_bug))).
Proof.
  destruct (@views_test_role_and_ownership Sample.externals Sample.db
              (Sample.get_by (AuthenticatedUser Sample.bob)) 1 "accept"
              Sample.login_bug Sample.bob eq_refl eq_refl)
    as [Hcomment [Hupdate _]].
  split.
  - apply Hcomment; [reflexivity | discriminate].
  - apply Hupdate; [discriminate | reflexivity | reflexivity].
Defined.

(** C3, as stated, fails. With the same data base, request and ticket, the
    comment view answers differently when only the result of the admin test
    differs; and two logged-in users who are not admins get different
    comments, and different answers from the update view, on the ticket one
    of them submitted. *)
Lemma views_answer_by_role_and_ownership :
  @TicketCommentView (Sample.externals_with_admin (fun _ => true)) Sample.db
    (Sample.get_by (AuthenticatedUser Sample.bob)) 1 "accept"
  <> @TicketCommentView (Sample.externals_with_admin (fun _ => false)) Sample.db
       (Sample.get_by (AuthenticatedUser Sample.bob)) 1 "accept"
  /\ @TicketDetailView.get_context_data Sample.externals Sample.db
       (Sample.get_by (AuthenticatedUser Sample.alice)) Sample.login_bug
     <> @TicketDetailView.get_context_data Sample.externals Sample.db
          (Sample.get_by (AuthenticatedUser Sample.bob)) Sample.login_bug
  /\ outcome (@TicketUpdateView Sample.externals Sample.db
                (Sample.get_by (AuthenticatedUser Sample.alice)) (Some 1))
     <> outcome (@TicketUpdateView Sample.externals Sample.db
                   (Sample.get_by (AuthenticatedUser Sample.bob)) (Some 1)).
Proof.
  split; [|split]; vm_compute; intros Heq; discriminate Heq.
Qed.

(** ** The form a posted action selects *)

Lemma Run_bind_ret {A B : Type} (a : A) (k : A -> Run B) :
  ([], Returned a) ≫= k = k a.
Proof. unfold mbind, Run_bind. destruct (k a) as [saved r]. reflexivity. Qed.

(** The comment view of a logged-in user on a ticket that exists, when the
    gate on the action lets the request through and it carries posted
    data: the run of the view is that of validating and saving [form],
    whatever form the action selected. *)
Lemma posts_form_intro `{Externals} (request : HttpRequest) (ticket : Ticket)
    (action template : string) (form : Form) :
  form_data form = Some (POST request) ->
  form_instance form = Stored ticket ->
  posts_form
    (if is_valid form
     then _ ← tell (FormSave form);
          mret (HttpResponseRedirect (get_absolute_url ticket))
     else mret (render request template
                  [("form", CtxForm form); ("ticket", CtxTicket (Stored ticket));
                   ("action", CtxStr action)]))
    request ticket action form.
Proof.
  intros Hdata Hinstance. unfold posts_form.
  split; [exact Hdata|]. split; [exact Hinstance|].
  destruct (is_valid form); [reflexivity|]. exists template. reflexivity.
Qed.

Lemma TicketCommentView_found `{Externals}
    (db : Database) (request : HttpRequest) (pk : Z) (action : string)
    (ticket : Ticket) (u : User) :
  user request = AuthenticatedUser u ->
  objects_get db pk = ([], Returned ticket) ->
  negb (is_admin (user request)) && negb (String.eqb action "comment") = false ->
  truthy_dict (POST request) = true ->
  exists template,
    TicketCommentView db request pk action
    = let form :=
        if in_closed_reopened action then
          bound_form CloseTicketForm (POST request) (Stored ticket)
            (Some (user request)) (Some action)
        else if String.eqb action "comment" then
          bound_form CommentTicketForm (POST request) (Stored ticket)
            (Some (user request)) None
        else if String.eqb action "accept" then
          bound_form AcceptTicketForm (POST request) (Stored ticket)
            (Some (user request)) None
        else
          bound_form AssignTicketForm (POST request) (Stored ticket)
            (Some (user request)) None in
      if is_valid form
      then _ ← tell (FormSave form);
           mret (HttpResponseRedirect (get_absolute_url ticket))
      else mret (render request template
                   [("form", CtxForm form); ("ticket", CtxTicket (Stored ticket));
                    ("action", CtxStr action)]).
Proof.
  intros Huser Hget Hgate Hpost.
  unfold TicketCommentView. rewrite (login_required_authenticated _ request u Huser).
  unfold TicketCommentView_body. rewrite Hget.
  rewrite Run_bind_ret. unfold try_except, mret, Run_ret.
  rewrite Run_bind_ret. rewrite Hgate, Hpost.
  eexists. reflexivity.
Qed.

(** Each of the five actions, posted by a user who may perform it, selects
    its own form class. *)
Lemma TicketCommentView_post_selects_form `{Externals}
    (db : Database) (request : HttpRequest) (pk : Z) (action : string)
    (ticket : Ticket) (u : User) (cls : FormClass) :
  user request = AuthenticatedUser u ->
  objects_get db pk = ([], Returned ticket) ->
  is_admin (user request) = true \/ action = "comment" ->
  truthy_dict (POST request) = true ->
  form_class_of_action action = Some cls ->
  exists form,
    form_class form = cls
    /\ posts_form (TicketCommentView db request pk action) request ticket action form.
Proof.
  intros Huser Hget Hmay Hpost Hcls.
  assert (Hgate : negb (is_admin (user request)) && negb (String.eqb action "comment")
                  = false).
  { destruct Hmay as [-> | ->]; [reflexivity|]. apply andb_false_r. }
  destruct (TicketCommentView_found db request pk action ticket u Huser Hget Hgate Hpost)
    as [template ->].
  unfold form_class_of_action in Hcls. unfold in_closed_reopened. cbv zeta.
  destruct (String.eqb action "closed");
    [injection Hcls as <-; eexists; split; [|apply posts_form_intro]; reflexivity|].
  destruct (String.eqb action "reopened");
    [injection Hcls as <-; eexists; split; [|apply posts_form_intro]; reflexivity|].
  cbn [orb].
  destruct (String.eqb action "comment");
    [injection Hcls as <-; eexists; split; [|apply posts_form_intro]; reflexivity|].
  destruct (String.eqb action "accept");
    [injection Hcls as <-; eexists; split; [|apply posts_form_intro]; reflexivity|].
  destruct (String.eqb action "assign"); [|discriminate].
  injection Hcls as <-. eexists. split; [|apply posts_form_intro]; reflexivity.
Qed.

(** Any other action, posted by an admin, falls into the branch written for
    [assign]: the assignment form is built from the posted data and saved
    when it is valid. *)
Lemma TicketCommentView_post_other_action `{Externals}
    (db : Database) (request : HttpRequest) (pk : Z) (action : string)
    (ticket : Ticket) (u : User) :
  user request = AuthenticatedUser u ->
  objects_get db pk = ([], Returned ticket) ->
  is_admin (user request) = true ->
  truthy_dict (POST request) = true ->
  form_class_of_action action = None ->
  posts_form (TicketCommentView db request pk action) request ticket action
    (bound_form AssignTicketForm (POST request) (Stored ticket)
       (Some (user request)) None).
Proof.
  intros Huser Hget Hadmin Hpost Hcls.
  assert (Hgate : negb (is_admin (user request)) && negb (String.eqb action "comment")
                  = false) by (rewrite Hadmin; reflexivity).
  destruct (TicketCommentView_found db request pk action ticket u Huser Hget Hgate Hpost)
    as [template ->].
  unfold form_class_of_action in Hcls. unfold in_closed_reopened. cbv zeta.
  destruct (String.eqb action "closed"); [discriminate|].
  destruct (String.eqb action "reopened"); [discriminate|].
  cbn [orb].
  destruct (String.eqb action "comment"); [discriminate|].
  destruct (String.eqb action "accept"); [discriminate|].
  apply posts_form_intro; reflexivity.
Qed.

(** C4, where the code departs from it. An admin posts the action [delete],
    which is none of the five: the view builds the assignment form from the
    posted data and saves it. *)
Theorem TicketCommentView_saves_on_unknown_action :
  form_class_of_action "delete" = None
  /\ @TicketCommentView Sample.externals Sample.db
       (Sample.post_by (AuthenticatedUser Sample.root) {[ "comment" := "gone" ]})
       1 "delete"
     = ([FormSave (bound_form AssignTicketForm {[ "comment" := "gone" ]}
                     (Stored Sample.login_bug)
                     (Some (AuthenticatedUser Sample.root)) None)],
        Returned (HttpResponseRedirect
                    (@get_absolute_url Sample.externals Sample.login_bug))).
Proof. split; reflexivity. Qed.

(** * More of the module *)

(** ** Title case and replacement *)





(** [what.replace("_", " ")] and the like: when [new] differs from [old],
    no [old] is left in the result; the result has the length of the
    argument; and a string without [old] is returned as it is. *)
Theorem replace_removes_old (old new : ascii) (s : string) :
  String.length (PyStr.replace old new s) = String.length s
  /\ (old <> new -> ~ In old (list_ascii_of_string (PyStr.replace old new s)))
  /\ (~ In old (list_ascii_of_string s) -> PyStr.replace old new s = s).
Proof.
  induction s as [|c s [IHlen [IHout IHid]]]; simpl.
  - repeat split; tauto.
  - split; [rewrite IHlen; reflexivity|]. split.
    + intros Hne [Hhead | Htail]; [|exact (IHout Hne Htail)].
      destruct (Ascii.eqb_spec c old); congruence.
    + intros Hnot. destruct (Ascii.eqb_spec c old) as [->|_].
      * exfalso. apply Hnot. left. reflexivity.
      * rewrite IHid; [reflexivity|]. intros Hin. apply Hnot. right. exact Hin.
Qed.

Lemma replace_removes_old_witness :
  ~ In "_"%char (list_ascii_of_string (PyStr.replace "_" " " "assigned_to"))
  /\ PyStr.replace "_" " " "owner" = "owner".
Proof.
  split.
  - apply (replace_removes_old "_" " " "assigned_to"). discriminate.
  - apply (replace_removes_old "_" " " "owner").
    simpl. intros H. repeat destruct H as [H | H]; try discriminate H. exact H.
Defined.

(** ** The list of tickets, every parameter *)

Lemma get_queryset_filters_tickets `{Externals}
    (db : Database) (request : HttpRequest) (kwargs : gmap string string) :
  TicketListView.get_queryset db request kwargs
  = TicketFilter_qs (GET request) (get_queryset_tickets db request kwargs).
Proof. reflexivity. Qed.

Lemma filter_filter_bool {A : Type} (f g : A -> bool) (l : list A) :
  List.filter f (List.filter g l) = List.filter (fun x => g x && f x) l.
Proof.
  induction l as [|x l IH]; [reflexivity|]. simpl.
  destruct (g x); simpl; [destruct (f x)|]; rewrite IH; reflexivity.
Qed.

Lemma filter_true {A : Type} (l : list A) : List.filter (fun _ => true) l = l.
Proof. induction l as [|x l IH]; [reflexivity|]. simpl. rewrite IH. reflexivity. Qed.

(** A filter applied only when its parameter is given is a filter by a
    condition that holds when the parameter is not given. *)
Lemma if_truthy_filter {A : Type} (o : option string) (f : string -> A -> bool)
    (l : list A) :
  Py.if_truthy o (fun x => List.filter (f x) l) l
  = List.filter (fun t => Py.if_truthy o (fun x => f x t) true) l.
Proof.
  unfold Py.if_truthy. destruct o as [s|]; [|symmetry; apply filter_true].
  destruct (negb (String.eqb s "")); [reflexivity | symmetry; apply filter_true].
Qed.

Lemma if_truthy_sorted_filter (o : option string) (f : string -> Ticket -> bool)
    (l : list Ticket) :
  Permutation
    (Py.if_truthy o (fun x => ORM.order_by_created_on_desc (List.filter (f x) l)) l)
    (List.filter (fun t => Py.if_truthy o (fun x => f x t) true) l).
Proof.
  unfold Py.if_truthy. destruct o as [s|]; [|rewrite filter_true; reflexivity].
  destruct (negb (String.eqb s "")); [|rewrite filter_true; reflexivity].
  apply order_by_created_on_desc_perm.
Qed.

Lemma if_truthy_sorted_filter_sorted (o : option string) (f : string -> Ticket -> bool)
    (l : list Ticket) :
  StronglySorted ORM.created_desc l ->
  StronglySorted ORM.created_desc
    (Py.if_truthy o (fun x => ORM.order_by_created_on_desc (List.filter (f x) l)) l).
Proof.
  intros Hl. unfold Py.if_truthy. destruct o as [s|]; [|exact Hl].
  destruct (negb (String.eqb s "")); [|exact Hl].
  apply order_by_created_on_desc_sorted.
Qed.

Lemma username_stage (what : option string) (o : option string) (l : list Ticket) :
  Py.if_truthy o
    (fun username =>
       if Py.eq_str what "submitted_by" then
         List.filter (ORM.submitted_by__username username) l
       else if Py.eq_str what "assigned_to" then
         List.filter (ORM.assigned_to__username username) l
       else
         List.filter (fun t => ORM.submitted_by__username username t
                               || ORM.assigned_to__username username t) l)
    l
  = List.filter (fun t => Py.if_truthy o (fun name => username_selects what name t) true) l.
Proof.
  rewrite <- if_truthy_filter. unfold Py.if_truthy, username_selects.
  destruct o as [s|]; [|reflexivity].
  destruct (negb (String.eqb s "")); [|reflexivity].
  destruct (Py.eq_str what "submitted_by"); [reflexivity|].
  destruct (Py.eq_str what "assigned_to"); reflexivity.
Qed.

(** The list without a status parameter: the three optional filters, one
    after the other. *)
Lemma get_queryset_tickets_no_status
    (db : Database) (request : HttpRequest) (kwargs : gmap string string) :
  Py.truthy (kwargs !! "status") = false ->
  Permutation (get_queryset_tickets db request kwargs)
    (List.filter (selected_by_parameters request kwargs) (Ticket_table db))
  /\ StronglySorted ORM.created_desc (get_queryset_tickets db request kwargs).
Proof.
  intros Hstatus. unfold get_queryset_tickets.
  rewrite (if_truthy_false (kwargs !! "status")) by exact Hstatus.
  rewrite (if_truthy_filter (GET request !! "q")
             (fun q t => ORM.icontains (description t) q || ORM.icontains (title t) q)).
  rewrite username_stage. split.
  - etransitivity; [apply if_truthy_sorted_filter|].
    rewrite !filter_filter_bool.
    etransitivity;
      [apply Permutation_filter_bool, order_by_created_on_desc_perm|].
    unfold ORM.Ticket_objects.
    erewrite List.filter_ext; [reflexivity|].
    intros t. unfold selected_by_parameters, matches_query. apply andb_assoc.
  - apply if_truthy_sorted_filter_sorted.
    do 2 apply StronglySorted_filter. apply order_by_created_on_desc_sorted.
Qed.

Lemma get_queryset_tickets_status
    (db : Database) (request : HttpRequest) (kwargs : gmap string string) (s : string) :
  kwargs !! "status" = Some s -> s <> "" ->
  get_queryset_tickets db request kwargs = tickets_by_status db s.
Proof.
  intros Hstatus Hs. unfold get_queryset_tickets. rewrite Hstatus.
  unfold Py.if_truthy at 1.
  destruct (String.eqb_spec s "") as [|_]; [contradiction|].
  simpl negb. cbv iota. unfold tickets_by_status, ORM.Ticket_objects.
  destruct (String.eqb s "closed"); reflexivity.
Qed.

Lemma truthy_cases (o : option string) :
  Py.truthy o = false \/ exists s, o = Some s /\ s <> "".
Proof.
  destruct o as [s|]; [|left; reflexivity]. simpl.
  destruct (String.eqb_spec s "") as [->|Hs]; [left; reflexivity|].
  right. exists s. split; [reflexivity | exact Hs].
Qed.

(** Whatever the parameters of the request are, the tickets that
    [TicketListView.get_queryset] hands to the filter set are rows of the
    ticket table, ordered by creation time, newest first, and no row is
    there more often than in the table. *)
Theorem list_tickets_sorted_rows_of_table `{Externals}
    (db : Database) (request : HttpRequest) (kwargs : gmap string string) :
  TicketListView.get_queryset db request kwargs
  = TicketFilter_qs (GET request) (get_queryset_tickets db request kwargs)
  /\ StronglySorted ORM.created_desc (get_queryset_tickets db request kwargs)
  /\ exists keep : Ticket -> bool,
       Permutation (get_queryset_tickets db request kwargs)
         (List.filter keep (Ticket_table db)).
Proof.
  split; [reflexivity|].
  destruct (truthy_cases (kwargs !! "status")) as [Hnone | [s [Hstatus Hs]]].
  - destruct (get_queryset_tickets_no_status db request kwargs Hnone) as [Hperm Hsorted].
    split; [exact Hsorted|]. eexists. exact Hperm.
  - rewrite (get_queryset_tickets_status db request kwargs s Hstatus Hs).
    split; [apply order_by_created_on_desc_sorted|].
    eexists. apply order_by_created_on_desc_perm.
Qed.

Lemma username_selects_spec (what : option string) (name : string) (t : Ticket) :
  username_selects what name t = true
  <-> (what = Some "submitted_by" -> username (submitted_by t) = name)
      /\ (what <> Some "submitted_by" -> what = Some "assigned_to" ->
          exists u, assigned_to t = Some u /\ username u = name)
      /\ (what <> Some "submitted_by" -> what <> Some "assigned_to" ->
          username (submitted_by t) = name
          \/ exists u, assigned_to t = Some u /\ username u = name).
Proof.
  assert (Hassigned : ORM.assigned_to__username name t = true
                      <-> exists u, assigned_to t = Some u /\ username u = name).
  { unfold ORM.assigned_to__username. destruct (assigned_to t) as [u|].
    - rewrite String.eqb_eq. split; [eauto|]. intros [v [[= <-] Hv]]. exact Hv.
    - split; [discriminate|]. intros [v [Hv _]]. discriminate. }
  assert (Heq : forall lit, Py.eq_str what lit = true <-> what = Some lit).
  { intros lit. destruct what as [w|]; simpl.
    - rewrite String.eqb_eq. split; congruence.
    - split; discriminate. }
  unfold username_selects.
  destruct (Py.eq_str what "submitted_by") eqn:Hs.
  - apply Heq in Hs. unfold ORM.submitted_by__username. rewrite String.eqb_eq.
    split; [intros Hn; repeat split; intros; try tauto; contradiction | tauto].
  - assert (Hns : what <> Some "submitted_by")
      by (intros Hw; apply Heq in Hw; congruence).
    destruct (Py.eq_str what "assigned_to") eqn:Ha.
    + apply Heq in Ha. rewrite Hassigned.
      split; [intros Hn; repeat split; intros; try tauto; contradiction | tauto].
    + assert (Hna : what <> Some "assigned_to")
        by (intros Hw; apply Heq in Hw; congruence).
      rewrite orb_true_iff, Hassigned. unfold ORM.submitted_by__username.
      rewrite String.eqb_eq.
      split; [intros Hn; repeat split; intros; try tauto; contradiction | tauto].
Qed.

(** Without a status parameter the list is the conjunction of the filters
    asked for: a ticket is listed exactly when it is in the table, its title
    or description contains the query (when there is one), it was submitted
    by or assigned to the user named (when one is; [what] says which of the
    two must hold, and either will do for any other value of [what]), and
    its type is the type asked for (when one is). Each such row is listed as
    often as the table has it, newest first. *)
Theorem list_is_conjunction_of_filters
    (db : Database) (request : HttpRequest) (kwargs : gmap string string) :
  Py.truthy (kwargs !! "status") = false ->
  Permutation (get_queryset_tickets db request kwargs)
    (List.filter (selected_by_parameters request kwargs) (Ticket_table db))
  /\ StronglySorted ORM.created_desc (get_queryset_tickets db request kwargs)
  /\ forall t,
       In t (get_queryset_tickets db request kwargs)
       <-> In t (Ticket_table db)
           /\ (forall q, GET request !! "q" = Some q -> q <> "" ->
               contains_ci (title t) q \/ contains_ci (description t) q)
           /\ (forall name, kwargs !! "username" = Some name -> name <> "" ->
               username_selects (kwargs !! "what") name t = true)
           /\ (forall ty, kwargs !! "type" = Some ty -> ty <> "" -> ticket_type t = ty).
Proof.
  intros Hstatus.
  destruct (get_queryset_tickets_no_status db request kwargs Hstatus) as [Hperm Hsorted].
  split; [exact Hperm|]. split; [exact Hsorted|]. intros t.
  assert (Hstage : forall (o : option string) (f : string -> bool),
             Py.if_truthy o f true = true
             <-> forall x, o = Some x -> x <> "" -> f x = true).
  { intros o f. unfold Py.if_truthy. destruct o as [x|].
    - destruct (String.eqb_spec x "") as [->|Hx]; simpl.
      + split; [intros _ y [= <-] Hy; contradiction | reflexivity].
      + split; [intros Hf y [= <-] _; exact Hf | intros Hf; apply Hf; [reflexivity|exact Hx]].
    - split; [intros _ y Hy; discriminate | reflexivity]. }
  split.
  - intros Hin. apply (Permutation_in _ Hperm) in Hin.
    apply filter_In in Hin as [Hin Hsel]. unfold selected_by_parameters in Hsel.
    apply andb_true_iff in Hsel as [Hsel Htype].
    apply andb_true_iff in Hsel as [Hq Hname].
    split; [exact Hin|]. split; [|split].
    + intros q Hget Hne. apply matches_query_spec.
      exact (proj1 (Hstage _ _) Hq q Hget Hne).
    + exact (proj1 (Hstage _ _) Hname).
    + intros ty Hget Hne. apply String.eqb_eq.
      exact (proj1 (Hstage _ _) Htype ty Hget Hne).
  - intros [Hin [Hq [Hname Htype]]].
    apply (Permutation_in _ (Permutation_sym Hperm)).
    apply filter_In. split; [exact Hin|]. unfold selected_by_parameters.
    rewrite !andb_true_iff. split; [split|].
    + apply Hstage. intros q Hget Hne. apply matches_query_spec. exact (Hq q Hget Hne).
    + apply Hstage. exact Hname.
    + apply Hstage. intros ty Hget Hne. apply String.eqb_eq. exact (Htype ty Hget Hne).
Qed.

Lemma list_is_conjunction_of_filters_witness :
  Permutation
    (get_queryset_tickets Sample.db (Sample.search_by AnonymousUser "bug")
       (<[ "what" := "submitted_by" ]> {[ "username" := "bob" ]}))
    (List.filter
       (selected_by_parameters (Sample.search_by AnonymousUser "bug")
          (<[ "what" := "submitted_by" ]> {[ "username" := "bob" ]}))
       (Ticket_table Sample.db)).
Proof.
  exact (proj1 (list_is_conjunction_of_filters Sample.db
                  (Sample.search_by AnonymousUser "bug")
                  (<[ "what" := "submitted_by" ]> {[ "username" := "bob" ]})
                  eq_refl)).
Defined.

(** ** Looking up by primary key *)

Lemma objects_get_cases (db : Database) (pk : Z) :
  objects_get db pk = ([], Raised DoesNotExist)
  \/ objects_get db pk = ([], Raised MultipleObjectsReturned)
  \/ exists t, objects_get db pk = ([], Returned t).
Proof.
  unfold objects_get. destruct (List.filter _ _) as [|x [|y l]].
  - left. reflexivity.
  - right. right. exists x. reflexivity.
  - right. left. reflexivity.
Qed.



(** ** The detail view, the rest *)

(** Whether the user has voted: the context says so exactly when the user
    is logged in and the vote log has a row of this ticket with the user's
    key; for an anonymous user it never does. *)
Theorem has_voted_iff_vote_logged `{Externals}
    (db : Database) (request : HttpRequest) (object ticket : Ticket) :
  objects_get db (ticket_id object) = ([], Returned ticket) ->
  exists context,
    TicketDetailView.get_context_data db request object = ([], Returned context)
    /\ TicketDetailView.context_ticket context = object
    /\ (TicketDetailView.context_has_voted context = true
        <-> exists u v,
              user request = AuthenticatedUser u
              /\ In v (UserVoteLog_table db)
              /\ vote_ticket v = ticket_id object
              /\ vote_user_id v = user_id u).
Proof.
  intros Hget. destruct (objects_get_Returned _ _ _ Hget) as [_ Hid].
  unfold TicketDetailView.get_context_data. rewrite Hget.
  eexists. split; [reflexivity|]. split; [reflexivity|]. simpl.
  destruct (user request) as [|u].
  - split; [discriminate|]. intros [u [v [Hu _]]]. discriminate.
  - rewrite existsb_exists. split.
    + intros [k [Hk Heq]]. apply in_map_iff in Hk as [v [<- Hv]].
      apply filter_In in Hv as [Hv Hvt]. exists u, v.
      split; [reflexivity|]. split; [exact Hv|]. split; lia.
    + intros [w [v [[= <-] [Hv [Hvt Hvu]]]]]. exists (vote_user_id v). split.
      * apply in_map. apply filter_In. split; [exact Hv | lia].
      * lia.
Qed.

Lemma has_voted_iff_vote_logged_witness :
  exists context,
    @TicketDetailView.get_context_data Sample.externals Sample.db
      (Sample.get_by (AuthenticatedUser Sample.root)) Sample.login_bug
    = ([], Returned context)
    /\ TicketDetailView.context_has_voted context = true.
Proof.
  destruct (@has_voted_iff_vote_logged Sample.externals Sample.db
              (Sample.get_by (AuthenticatedUser Sample.root))
              Sample.login_bug Sample.login_bug eq_refl)
    as [context [Hrun [_ Hvoted]]].
  exists context. split; [exact Hrun|]. apply Hvoted.
  exists Sample.root, {| vote_ticket := 1; vote_user_id := 3 |}.
  split; [reflexivity|]. split; [left; reflexivity|]. split; reflexivity.
Defined.

(** The detail view reads the ticket again by the key of the object it was
    given: it builds a context exactly when one row of the table has that
    key; with no such row it raises [DoesNotExist], with several
    [MultipleObjectsReturned]. *)
Theorem detail_context_needs_one_row `{Externals}
    (db : Database) (request : HttpRequest) (object : Ticket) :
  let rows := List.filter (fun t => ticket_id t =? ticket_id object) (Ticket_table db) in
  (rows = [] ->
   TicketDetailView.get_context_data db request object = ([], Raised DoesNotExist))
  /\ ((length rows > 1)%nat ->
      TicketDetailView.get_context_data db request object
      = ([], Raised MultipleObjectsReturned))
  /\ (length rows = 1%nat ->
      exists context,
        TicketDetailView.get_context_data db request object = ([], Returned context)
        /\ TicketDetailView.context_ticket context = object).
Proof.
  intros rows. unfold TicketDetailView.get_context_data, objects_get, ORM.Ticket_objects.
  fold rows. destruct rows as [|x [|y l]]; simpl; repeat split;
    try reflexivity; try discriminate; try lia.
  intros _. eexists. split; reflexivity.
Qed.

Lemma detail_context_needs_one_row_witness :
  @TicketDetailView.get_context_data Sample.externals Sample.db
    (Sample.get_by AnonymousUser)
    {| ticket_id := 9; title := "gone"; description := ""; status := "new";
       ticket_type := "bug"; created_on := 0; submitted_by := Sample.bob;
       assigned_to := None; tags := [] |}
  = ([], Raised DoesNotExist).
Proof.
  refine (proj1 (@detail_context_needs_one_row Sample.externals Sample.db
                   (Sample.get_by AnonymousUser) _) _).
  reflexivity.
Defined.

(** ** The comment view, every request *)

Lemma TicketCommentView_gate `{Externals}
    (db : Database) (request : HttpRequest) (pk : Z) (action : string)
    (ticket : Ticket) (u : User) :
  user request = AuthenticatedUser u ->
  objects_get db pk = ([], Returned ticket) ->
  negb (is_admin (user request)) && negb (String.eqb action "comment") = true ->
  TicketCommentView db request pk action
  = ([], Returned (HttpResponseRedirect (get_absolute_url ticket))).
Proof.
  intros Huser Hget Hgate.
  unfold TicketCommentView. rewrite (login_required_authenticated _ request u Huser).
  unfold TicketCommentView_body. rewrite Hget.
  rewrite Run_bind_ret. unfold try_except, mret, Run_ret.
  rewrite Run_bind_ret. rewrite Hgate. reflexivity.
Qed.

Lemma TicketCommentView_lookup_fails `{Externals}
    (db : Database) (request : HttpRequest) (pk : Z) (action : string) (u : User) :
  user request = AuthenticatedUser u ->
  (objects_get db pk = ([], Raised DoesNotExist) ->
   TicketCommentView db request pk action
   = ([], Returned (HttpResponseRedirect (url_reverse "tickets:ticket_list"))))
  /\ (objects_get db pk = ([], Raised MultipleObjectsReturned) ->
      TicketCommentView db request pk action = ([], Raised MultipleObjectsReturned)).
Proof.
  intros Huser.
  unfold TicketCommentView. rewrite (login_required_authenticated _ request u Huser).
  unfold TicketCommentView_body. split; intros ->; reflexivity.
Qed.

(** The page a request without posted data gets: an unbound form of the
    class the action selects, nothing saved. *)
Lemma TicketCommentView_unposted `{Externals}
    (db : Database) (request : HttpRequest) (pk : Z) (action : string)
    (ticket : Ticket) (u : User) :
  user request = AuthenticatedUser u ->
  objects_get db pk = ([], Returned ticket) ->
  negb (is_admin (user request)) && negb (String.eqb action "comment") = false ->
  truthy_dict (POST request) = false ->
  exists template form label,
    TicketCommentView db request pk action
    = ([], Returned (render request template
                       [("form", CtxForm form); ("ticket", CtxTicket (Stored ticket));
                        ("action", CtxStr label)]))
    /\ form_data form = None
    /\ form_instance form = Stored ticket
    /\ form_user form = Some (user request)
    /\ template = (if in_closed_reopened action
                   then "tickets/close_reopen_ticket_form.html"
                   else "tickets/comment_form.html")
    /\ label = (if String.eqb action "assign" && truthy_related (assigned_to ticket)
                then "re-assign" else action)
    /\ (form_class_of_action action = Some (form_class form)
        \/ form_class_of_action action = None /\ form_class form = AssignTicketForm).
Proof.
  intros Huser Hget Hgate Hpost.
  unfold TicketCommentView. rewrite (login_required_authenticated _ request u Huser).
  unfold TicketCommentView_body. rewrite Hget.
  rewrite Run_bind_ret. unfold try_except, mret, Run_ret.
  rewrite Run_bind_ret. rewrite Hgate, Hpost.
  unfold form_class_of_action, in_closed_reopened.
  destruct (String.eqb_spec action "closed") as [->|_];
    [do 3 eexists; split; [reflexivity|]; repeat split; left; reflexivity|].
  destruct (String.eqb_spec action "reopened") as [->|_];
    [do 3 eexists; split; [reflexivity|]; repeat split; left; reflexivity|].
  cbn [orb].
  destruct (String.eqb_spec action "comment") as [->|_];
    [do 3 eexists; split; [reflexivity|]; repeat split; left; reflexivity|].
  destruct (String.eqb_spec action "accept") as [->|_];
    [do 3 eexists; split; [reflexivity|]; repeat split; left; reflexivity|].
  cbn [andb].
  destruct (String.eqb action "assign");
    (do 3 eexists; split; [reflexivity|]; repeat split;
     [ destruct (assigned_to ticket); reflexivity
     | first [left; reflexivity | right; split; reflexivity] ]).
Qed.

(** A request that does not post data to the comment view is shown the
    form of its action and changes nothing: the form is unbound, nothing is
    saved, the close and reopen actions get their own template, and the page
    of an [assign] on a ticket that is assigned already is labelled
    [re-assign]. *)
Theorem comment_view_shows_unbound_form `{Externals}
    (db : Database) (request : HttpRequest) (pk : Z) (action : string)
    (ticket : Ticket) (u : User) :
  user request = AuthenticatedUser u ->
  objects_get db pk = ([], Returned ticket) ->
  is_admin (user request) = true \/ action = "comment" ->
  POST request = ∅ ->
  exists template form label,
    TicketCommentView db request pk action
    = ([], Returned (render request template
                       [("form", CtxForm form); ("ticket", CtxTicket (Stored ticket));
                        ("action", CtxStr label)]))
    /\ form_data form = None
    /\ form_instance form = Stored ticket
    /\ form_user form = Some (user request)
    /\ template = (if in_closed_reopened action
                   then "tickets/close_reopen_ticket_form.html"
                   else "tickets/comment_form.html")
    /\ label = (if String.eqb action "assign" && truthy_related (assigned_to ticket)
                then "re-assign" else action)
    /\ (form_class_of_action action = Some (form_class form)
        \/ form_class_of_action action = None /\ form_class form = AssignTicketForm).
Proof.
  intros Huser Hget Hmay Hpost.
  apply (TicketCommentView_unposted db request pk action ticket u Huser Hget).
  - destruct Hmay as [-> | ->]; [reflexivity | apply andb_false_r].
  - rewrite Hpost. reflexivity.
Qed.

Lemma comment_view_shows_unbound_form_witness :
  exists template form,
    @TicketCommentView Sample.externals Sample.db
      (Sample.get_by (AuthenticatedUser Sample.root)) 2 "assign"
    = ([], Returned (render (Sample.get_by (AuthenticatedUser Sample.root)) template
                       [("form", CtxForm form);
                        ("ticket", CtxTicket (Stored Sample.export_crash));
                        ("action", CtxStr "re-assign")])).
Proof.
  destruct (@comment_view_shows_unbound_form Sample.externals Sample.db
              (Sample.get_by (AuthenticatedUser Sample.root)) 2 "assign"
              Sample.export_crash Sample.root eq_refl eq_refl
              (or_introl eq_refl) eq_refl)
    as [template [form [label [Hrun [_ [_ [_ [_ [Hlabel _]]]]]]]]].
  exists template, form. rewrite Hrun, Hlabel. reflexivity.
Defined.

(** Every run of the comment view: what is saved, and how it ends. *)
Lemma TicketCommentView_runs `{Externals}
    (db : Database) (request : HttpRequest) (pk : Z) (action : string) :
  (effects (TicketCommentView db request pk action) = []
   /\ ((exists response,
          outcome (TicketCommentView db request pk action) = Returned response)
       \/ objects_get db pk = ([], Raised MultipleObjectsReturned)
          /\ outcome (TicketCommentView db request pk action)
             = Raised MultipleObjectsReturned))
  \/ exists u ticket form,
       user request = AuthenticatedUser u
       /\ objects_get db pk = ([], Returned ticket)
       /\ (is_admin (user request) = true
           \/ action = "comment" /\ form_class form = CommentTicketForm)
       /\ truthy_dict (POST request) = true
       /\ is_valid form = true
       /\ form_data form = Some (POST request)
       /\ form_instance form = Stored ticket
       /\ TicketCommentView db request pk action
          = ([FormSave form], Returned (HttpResponseRedirect (get_absolute_url ticket))).
Proof.
  assert (Hwho : user request = AnonymousUser
                 \/ exists u, user request = AuthenticatedUser u)
    by (destruct (user request); eauto).
  destruct Hwho as [Huser | [u Huser]].
  { left. unfold TicketCommentView.
    rewrite (login_required_anonymous _ request Huser). split; [reflexivity|].
    left. eexists. reflexivity. }
  destruct (TicketCommentView_lookup_fails db request pk action u Huser)
    as [Hmissing Hseveral].
  destruct (objects_get_cases db pk) as [Hget | [Hget | [ticket Hget]]].
  { left. rewrite (Hmissing Hget). split; [reflexivity|]. left. eexists. reflexivity. }
  { left. rewrite (Hseveral Hget). split; [reflexivity|]. right.
    split; [exact Hget | reflexivity]. }
  destruct (negb (is_admin (user request)) && negb (String.eqb action "comment"))
    eqn:Hgate.
  { left. rewrite (TicketCommentView_gate db request pk action ticket u Huser Hget Hgate).
    split; [reflexivity|]. left. eexists. reflexivity. }
  destruct (truthy_dict (POST request)) eqn:Hpost.
  2:{ left.
      destruct (TicketCommentView_unposted db request pk action ticket u
                  Huser Hget Hgate Hpost) as [template [form [label [-> _]]]].
      split; [reflexivity|]. left. eexists. reflexivity. }
  destruct (TicketCommentView_found db request pk action ticket u Huser Hget Hgate Hpost)
    as [template Hrun].
  cbv zeta in Hrun.
  match type of Hrun with
  | _ = (if is_valid ?f then _ else _) => set (form := f) in *
  end.
  destruct (is_valid form) eqn:Hvalid.
  2:{ left. rewrite Hrun. split; [reflexivity|]. left. eexists. reflexivity. }
  right. exists u, ticket, form.
  split; [exact Huser|]. split; [exact Hget|].
  assert (Hshape : form_data form = Some (POST request)
                   /\ form_instance form = Stored ticket
                   /\ (action = "comment" -> form_class form = CommentTicketForm)).
  { subst form. unfold in_closed_reopened.
    destruct (String.eqb_spec action "closed") as [->|_];
      [repeat split; discriminate|].
    destruct (String.eqb_spec action "reopened") as [->|_];
      [repeat split; discriminate|].
    cbn [orb].
    destruct (String.eqb_spec action "comment") as [->|Hc];
      [repeat split|].
    destruct (String.eqb action "accept"); repeat split; contradiction. }
  destruct Hshape as [Hdata [Hinstance Hclass]].
  split.
  { apply andb_false_iff in Hgate as [Hadmin | Hcomment].
    - left. apply negb_false_iff. exact Hadmin.
    - right. apply negb_false_iff, String.eqb_eq in Hcomment. auto. }
  split; [reflexivity|]. split; [exact Hvalid|].
  split; [exact Hdata|]. split; [exact Hinstance|].
  rewrite Hrun. reflexivity.
Qed.



(** The comment view saves a form in one case only: the user is logged in,
    the ticket exists, the request posts data, the form bound to that data
    and that ticket is valid, and the user is an admin or the action is
    [comment] -- in which case the form is the comment form. Then that one
    form is saved and the user is sent back to the ticket. In particular a
    user who is not an admin can save nothing but a comment, and a request
    without posted data saves nothing. *)
Theorem comment_view_saves_only_when_allowed `{Externals}
    (db : Database) (request : HttpRequest) (pk : Z) (action : string) (form : Form) :
  In (FormSave form) (effects (TicketCommentView db request pk action)) ->
  exists u ticket,
    user request = AuthenticatedUser u
    /\ In ticket (Ticket_table db) /\ ticket_id ticket = pk
    /\ (is_admin (user request) = true
        \/ action = "comment" /\ form_class form = CommentTicketForm)
    /\ POST request <> ∅
    /\ is_valid form = true
    /\ form_data form = Some (POST request)
    /\ form_instance form = Stored ticket
    /\ TicketCommentView db request pk action
       = ([FormSave form], Returned (HttpResponseRedirect (get_absolute_url ticket))).
Proof.
  intros Hsaved.
  destruct (TicketCommentView_runs db request pk action)
    as [[Hnone _] | [u [ticket [form' Hrun]]]].
  { rewrite Hnone in Hsaved. destruct Hsaved. }
  destruct Hrun as [Huser [Hget [Hmay [Hpost [Hvalid [Hdata [Hinstance Hrun]]]]]]].
  rewrite Hrun in Hsaved. destruct Hsaved as [[= <-] | []].
  destruct (objects_get_Returned db pk ticket Hget) as [Hin Hid].
  exists u, ticket. repeat split; try assumption.
  intros Hempty. rewrite Hempty in Hpost. discriminate Hpost.
Qed.

Lemma comment_view_saves_only_when_allowed_witness :
  exists u ticket,
    user (Sample.post_by (AuthenticatedUser Sample.bob) {[ "comment" := "me too" ]})
    = AuthenticatedUser u
    /\ In ticket (Ticket_table Sample.db) /\ ticket_id ticket = 1.
Proof.
  assert (Hsaved :
            In (FormSave
                  (bound_form CommentTicketForm {[ "comment" := "me too" ]}
                     (Stored Sample.login_bug) (Some (AuthenticatedUser Sample.bob)) None))
               (effects
                  (@TicketCommentView Sample.externals Sample.db
                     (Sample.post_by (AuthenticatedUser Sample.bob)
                        {[ "comment" := "me too" ]})
                     1 "comment")))
    by (left; reflexivity).
  destruct (@comment_view_saves_only_when_allowed Sample.externals Sample.db
              (Sample.post_by (AuthenticatedUser Sample.bob) {[ "comment" := "me too" ]})
              1 "comment"
              (bound_form CommentTicketForm {[ "comment" := "me too" ]}
                 (Stored Sample.login_bug) (Some (AuthenticatedUser Sample.bob)) None)
              Hsaved)
    as [u [ticket [Hu [Hin [Hid _]]]]].
  exists u, ticket. split; [exact Hu|]. split; [exact Hin | exact Hid].
Defined.

(** ** The update view, every request *)


(** ** The tag of a tag page *)

Lemma first_spec (qs : list Tag) :
  match TagMixin.first qs with
  | None => qs = []
  | Some g => In g qs /\ forall h, In h qs -> tag_id g <= tag_id h
  end.
Proof.
  induction qs as [|x qs IH]; [reflexivity|]. simpl.
  destruct (TagMixin.first qs) as [b|].
  - destruct IH as [Hb Hmin]. destruct (Z.leb_spec (tag_id x) (tag_id b)).
    + split; [left; reflexivity|]. intros h [<- | Hh]; [lia|].
      specialize (Hmin h Hh). lia.
    + split; [right; exact Hb|]. intros h [<- | Hh]; [lia|]. exact (Hmin h Hh).
  - subst qs. split; [left; reflexivity|]. intros h [<- | []]. lia.
Qed.

(** The tag mixin adds two entries to the context and leaves the others as
    they were: [tags] is every tag; [tag] is the tag that has the slug of
    the page, the one with the least key should several have it, and [None]
    when no tag has that slug or the page has no slug. *)
Theorem tag_mixin_context
    (tag_table : list Tag) (kwargs : gmap string string) (super_context : gmap string Value) :
  let context := TagMixin.get_context_data tag_table kwargs super_context in
  context !! "tags" = Some (VTags tag_table)
  /\ (forall name, name <> "tag" -> name <> "tags" ->
      context !! name = super_context !! name)
  /\ (context !! "tag" = Some VNone
      <-> forall g, In g tag_table -> kwargs !! "slug" <> Some (slug g))
  /\ (forall g, context !! "tag" = Some (VTag g)
                <-> In g tag_table /\ kwargs !! "slug" = Some (slug g)
                    /\ TagMixin.first (TagMixin.filter_slug (kwargs !! "slug") tag_table)
                       = Some g)
  /\ (forall g, context !! "tag" = Some (VTag g) ->
      forall h, In h tag_table -> slug h = slug g -> tag_id g <= tag_id h).
Proof.
  intros context. subst context. unfold TagMixin.get_context_data.
  pose proof (first_spec (TagMixin.filter_slug (kwargs !! "slug") tag_table)) as Hfirst.
  assert (Hmatch : forall g,
             In g (TagMixin.filter_slug (kwargs !! "slug") tag_table)
             <-> In g tag_table /\ kwargs !! "slug" = Some (slug g)).
  { intros g. unfold TagMixin.filter_slug. destruct (kwargs !! "slug") as [s|].
    - rewrite filter_In, String.eqb_eq. split; intros [Hin Hs]; split; congruence.
    - split; [intros [] | intros [_ Hs]; discriminate]. }
  split; [apply lookup_insert_eq|].
  split; [intros name Htag Htags; rewrite !lookup_insert_ne by congruence; reflexivity|].
  rewrite lookup_insert_ne by discriminate. rewrite lookup_insert_eq.
  destruct (TagMixin.first _) as [b|].
  - destruct Hfirst as [Hb Hmin]. apply Hmatch in Hb as Hb'. destruct Hb' as [Hin Hs].
    split; [|split].
    + split; [discriminate|]. intros Hnone. exfalso. exact (Hnone b Hin Hs).
    + intros g. split.
      * intros [= <-]. split; [exact Hin|]. split; [exact Hs | reflexivity].
      * intros [_ [_ [= <-]]]. reflexivity.
    + intros g [= <-] h Hh Hslug. apply Hmin. apply Hmatch.
      split; [exact Hh | congruence].
  - split; [|split].
    + split; [|reflexivity]. intros _ g Hin Hs.
      assert (Hg : In g (TagMixin.filter_slug (kwargs !! "slug") tag_table))
        by (apply Hmatch; split; assumption).
      rewrite Hfirst in Hg. destruct Hg.
    + intros g. split; [discriminate | intros [_ [_ Hsome]]; discriminate].
    + intros g Hsome. discriminate.
Qed.

Lemma tag_mixin_context_witness :
  TagMixin.get_context_data Site.tag_table {[ "slug" := "nope" ]} ∅ !! "tag"
  = Some VNone.
Proof.
  apply (proj1 (proj2 (proj2 (tag_mixin_context Site.tag_table
                                {[ "slug" := "nope" ]} ∅)))).
  intros g Hin Hslug. simpl in Hin.
  destruct Hin as [<- | [<- | [<- | []]]]; discriminate Hslug.
Defined.

(** ** The tags related to a list of tickets *)

Lemma count_occ_flat_map_NoDup (g : Tag) (l : list Ticket) :
  (forall t, In t l -> List.NoDup (tags t)) ->
  count_occ Tag_eq_dec (flat_map tags l) g
  = length (List.filter (bears g) l).
Proof.
  induction l as [|t l IH]; intros Hnd; [reflexivity|].
  simpl. rewrite count_occ_app, IH by (intros u Hu; apply Hnd; right; exact Hu).
  assert (Ht : List.NoDup (tags t)) by (apply Hnd; left; reflexivity).
  assert (Hb : bears g t = true <-> In g (tags t)).
  { unfold bears. destruct (in_dec Tag_eq_dec g (tags t)); split; intros Hx;
      try discriminate; tauto. }
  destruct (bears g t).
  - assert (Hin : In g (tags t)) by (apply Hb; reflexivity).
    apply (proj1 (List.NoDup_count_occ' Tag_eq_dec (tags t)) Ht) in Hin.
    rewrite Hin. reflexivity.
  - assert (Hout : ~ In g (tags t)) by (intros Hin; apply Hb in Hin; discriminate).
    apply (count_occ_not_In Tag_eq_dec) in Hout. rewrite Hout. reflexivity.
Qed.

(** The related tags of a list of tickets: every tag that a ticket of the
    list bears is there once, with the number of its tag rows, which is at
    least one; no other tag is there. When no ticket bears a tag twice, the
    number is that of the tickets that bear the tag, among the rows of the
    table whose key is in the list. *)
Theorem related_tags_counts
    (db : Database) (object_list : list Ticket) :
  let listed :=
    List.filter (fun t => existsb (Z.eqb (ticket_id t)) (map ticket_id object_list))
      (Ticket_table db) in
  List.NoDup (map fst (related_tags db object_list))
  /\ (forall g n, In (g, n) (related_tags db object_list) ->
      (1 <= n)%nat /\ n = count_occ Tag_eq_dec (flat_map tags listed) g
      /\ exists t, In t listed /\ In g (tags t))
  /\ (forall t g, In t listed -> In g (tags t) ->
      exists n, In (g, n) (related_tags db object_list))
  /\ ((forall t, In t listed -> List.NoDup (tags t)) ->
      forall g n, In (g, n) (related_tags db object_list) ->
      n = length (List.filter (bears g) listed)).
Proof.
  intros listed. unfold related_tags, ORM.Ticket_objects. fold listed.
  set (rows := flat_map tags listed).
  assert (Hrow : forall g, In g rows <-> exists t, In t listed /\ In g (tags t))
    by (intros g; apply in_flat_map).
  assert (Hkept : forall g n,
             In (g, n) (map (fun g => (g, count_occ Tag_eq_dec rows g)) (remove_dups rows))
             <-> In g rows /\ n = count_occ Tag_eq_dec rows g).
  { intros g n. rewrite in_map_iff. split.
    - intros [x [[= <- <-] Hx]]. split; [|reflexivity].
      rewrite <- list_elem_of_In in Hx |- *.
      rewrite elem_of_remove_dups in Hx. exact Hx.
    - intros [Hg ->]. exists g. split; [reflexivity|].
      rewrite <- list_elem_of_In in Hg |- *.
      rewrite elem_of_remove_dups. exact Hg. }
  split; [|split; [|split]].
  - rewrite map_map. simpl. rewrite map_id. apply NoDup_ListNoDup, NoDup_remove_dups.
  - intros g n Hin. apply Hkept in Hin as [Hg ->].
    split; [apply (count_occ_In Tag_eq_dec) in Hg; lia|].
    split; [reflexivity|]. apply Hrow. exact Hg.
  - intros t g Ht Hg. exists (count_occ Tag_eq_dec rows g). apply Hkept.
    split; [|reflexivity]. apply Hrow. eauto.
  - intros Hnd g n Hin. apply Hkept in Hin as [_ ->].
    apply count_occ_flat_map_NoDup. exact Hnd.
Qed.

Lemma related_tags_counts_witness :
  In (Sample.ui, 2%nat) (related_tags Sample.db
                          [Sample.login_bug; Sample.export_crash])
  /\ 2%nat = length (List.filter (bears Sample.ui)
                       (List.filter
                          (fun t => existsb (Z.eqb (ticket_id t))
                                      (map ticket_id [Sample.login_bug; Sample.export_crash]))
                          (Ticket_table Sample.db))).
Proof.
  assert (Hin : In (Sample.ui, 2%nat)
                  (related_tags Sample.db
                     [Sample.login_bug; Sample.export_crash]))
    by (vm_compute; left; reflexivity).
  split; [exact Hin|].
  refine (proj2 (proj2 (proj2 (related_tags_counts Sample.db
                                 [Sample.login_bug; Sample.export_crash])))
            _ Sample.ui 2%nat Hin).
  intros t Ht. vm_compute in Ht.
  destruct Ht as [<- | [<- | []]]; repeat constructor; simpl; intuition discriminate.
Defined.

(** ** The filters of the side bar *)

Lemma insert_by_key_perm {B : Type} (x : Z * B) (l : list (Z * B)) :
  Permutation (PyStr.insert_by_key x l) (x :: l).
Proof.
  induction l as [|y l IH]; simpl; [reflexivity|].
  destruct (fst x <=? fst y); [reflexivity|].
  rewrite IH. apply perm_swap.
Qed.

Lemma insert_by_key_sorted {B : Type} (x : Z * B) (l : list (Z * B)) :
  Sorted (fun a b => fst a <= fst b) l ->
  Sorted (fun a b => fst a <= fst b) (PyStr.insert_by_key x l).
Proof.
  induction 1 as [|y l Hl IH Hy]; simpl; [repeat constructor|].
  destruct (Z.leb_spec (fst x) (fst y)).
  - repeat constructor; assumption.
  - constructor; [exact IH|].
    destruct l as [|z l]; simpl; [constructor; lia|].
    destruct (fst x <=? fst z); constructor; [lia|].
    inversion Hy; assumption.
Qed.

Lemma sorted_by_key_perm {B : Type} (l : list (Z * B)) :
  Permutation (PyStr.sorted_by_key l) l.
Proof.
  induction l as [|x l IH]; simpl; [reflexivity|].
  rewrite insert_by_key_perm, IH. reflexivity.
Qed.

Lemma sorted_by_key_sorted {B : Type} (l : list (Z * B)) :
  StronglySorted (fun a b => fst a <= fst b) (PyStr.sorted_by_key l).
Proof.
  apply Sorted_StronglySorted; [intros a b c; lia|].
  induction l as [|x l IH]; simpl; [constructor|].
  apply insert_by_key_sorted. exact IH.
Qed.

Lemma distinct_values {A B : Type} `{EqDecision B} (f : A -> B) (l : list A) :
  List.NoDup (remove_dups (remove_dups (map f l)))
  /\ forall x, In x (remove_dups (remove_dups (map f l))) <-> exists t, In t l /\ f t = x.
Proof.
  split; [apply NoDup_ListNoDup, NoDup_remove_dups|].
  intros x. rewrite <- list_elem_of_In, !elem_of_remove_dups, list_elem_of_In, in_map_iff.
  split; intros [t [Ha Hb]]; exists t; tauto.
Qed.

(** The filters of the side bar, in the order the template shows them:
    status, application, priority, type, submitted by, assigned to. The
    priorities are the labels of the choices in the order of their keys.
    Each of the three lists read from the tickets names every value of some
    ticket once: the user names of the submitters, the user names of the
    assignees -- with [None] exactly when some ticket is assigned to nobody
    -- and the applications. *)
Theorem ticket_filters_entries `{ModelChoices} (db : Database) :
  map fst (get_ticket_filters db)
  = ["status"; "application"; "priority"; "type"; "submitted_by"; "assigned_to"]
  /\ (forall values, In ("priority", values) (get_ticket_filters db) ->
      exists ordered,
        Permutation ordered TICKET_PRIORITY_CHOICES
        /\ StronglySorted (fun a b => fst a <= fst b) ordered
        /\ values = map (fun x => Some (snd x)) ordered)
  /\ (forall values, In ("submitted_by", values) (get_ticket_filters db) ->
      List.NoDup values
      /\ forall x, In x values
                   <-> exists t, In t (Ticket_table db)
                                 /\ x = Some (username (submitted_by t)))
  /\ (forall values, In ("assigned_to", values) (get_ticket_filters db) ->
      List.NoDup values
      /\ (In None values <-> exists t, In t (Ticket_table db) /\ assigned_to t = None)
      /\ forall name, In (Some name) values
                      <-> exists t u, In t (Ticket_table db)
                                      /\ assigned_to t = Some u /\ username u = name)
  /\ (forall values, In ("application", values) (get_ticket_filters db) ->
      List.NoDup values
      /\ forall x, In x values
                   <-> exists t, In t (Ticket_table db) /\ application__application t = x).
Proof.
  unfold get_ticket_filters, ORM.Ticket_objects. cbv zeta.
  split; [reflexivity|]. split; [|split; [|split]].
  - intros values Hin. simpl in Hin.
    destruct Hin as [Hin|[Hin|[Hin|[Hin|[Hin|[Hin|[]]]]]]]; try discriminate Hin.
    injection Hin as <-. exists (PyStr.sorted_by_key TICKET_PRIORITY_CHOICES).
    split; [apply sorted_by_key_perm|]. split; [apply sorted_by_key_sorted | reflexivity].
  - intros values Hin. simpl in Hin.
    destruct Hin as [Hin|[Hin|[Hin|[Hin|[Hin|[Hin|[]]]]]]]; try discriminate Hin.
    injection Hin as <-.
    destruct (distinct_values (fun t => Some (username (submitted_by t))) (Ticket_table db))
      as [Hnd Hmem].
    split; [exact Hnd|]. intros x. rewrite Hmem.
    split; intros [t [Ht Hx]]; exists t; split; congruence.
  - intros values Hin. simpl in Hin.
    destruct Hin as [Hin|[Hin|[Hin|[Hin|[Hin|[Hin|[]]]]]]]; try discriminate Hin.
    injection Hin as <-.
    destruct (distinct_values (fun t => username <$> assigned_to t) (Ticket_table db))
      as [Hnd Hmem].
    split; [exact Hnd|]. split.
    + rewrite Hmem. split; intros [t [Ht Hx]]; exists t; split; try exact Ht.
      * destruct (assigned_to t); [discriminate | reflexivity].
      * rewrite Hx. reflexivity.
    + intros name. rewrite Hmem. split.
      * intros [t [Ht Hx]]. destruct (assigned_to t) as [u|] eqn:Hu; [|discriminate].
        exists t, u. injection Hx as Hx. tauto.
      * intros [t [u [Ht [Hu Hname]]]]. exists t. split; [exact Ht|].
        rewrite Hu. simpl. congruence.
  - intros values Hin. simpl in Hin.
    destruct Hin as [Hin|[Hin|[Hin|[Hin|[Hin|[Hin|[]]]]]]]; try discriminate Hin.
    injection Hin as <-. apply distinct_values.
Qed.

Lemma ticket_filters_entries_witness :
  exists ordered,
    Permutation ordered (@TICKET_PRIORITY_CHOICES Site.choices)
    /\ StronglySorted (fun a b => fst a <= fst b) ordered
    /\ [Some "Critical"; Some "High"; Some "Normal"]
       = map (fun x => Some (snd x)) ordered.
Proof.
  apply (proj1 (proj2 (@ticket_filters_entries Site.choices Sample.db))).
  vm_compute. right. right. left. reflexivity.
Defined.

(** ** The context of the ticket list *)



Lemma lookup_if_truthy_insert (o : option string) (k j : string) (f : string -> Value)
    (m : gmap string Value) :
  Py.if_truthy o (fun x => <[ k := f x ]> m) m !! j
  = if decide (k = j) then Py.if_truthy o (fun x => Some (f x)) (m !! j) else m !! j.
Proof.
  unfold Py.if_truthy. destruct (decide (k = j)) as [->|Hne].
  - destruct o as [x|]; [|reflexivity].
    destruct (negb (String.eqb x "")); [apply lookup_insert_eq | reflexivity].
  - destruct o as [x|]; [|reflexivity].
    destruct (negb (String.eqb x "")); [apply lookup_insert_ne; exact Hne | reflexivity].
Qed.

(** Reads an entry of a context built by insertions, some of them
    optional: every insertion is compared with the name read. *)
Ltac read_context :=
  repeat first [rewrite lookup_insert | rewrite lookup_if_truthy_insert];
  repeat match goal with
         | |- context [decide (?a = ?b)] =>
             destruct (decide (a = b)) as [? | ?];
             [ try discriminate | try congruence ]
         end.

(** The context of the ticket list keeps every entry of the generic view
    but the nine the module writes. [query], [related_tags], [filters],
    [tags] and [tag] are always written -- [query] is [None] for a request
    without one. [type], [status], [username] and [what] are written only
    when the URL gives them: the status in title case, [what] with its
    underscores turned into blanks, and the type as the label of its choice,
    [None] when no choice has it. *)
Theorem list_view_context `{ModelChoices}
    (db : Database) (tag_table : list Tag) (request : HttpRequest)
    (kwargs : gmap string string) (object_list : list Ticket)
    (super_context : gmap string Value) :
  let context :=
    TicketListView_get_context_data db tag_table request kwargs object_list
      super_context in
  (forall name,
      ~ In name ["tag"; "tags"; "filters"; "type"; "status"; "username"; "query";
                 "what"; "related_tags"] ->
      context !! name = super_context !! name)
  /\ context !! "query" = Some (match GET request !! "q" with
                                | Some q => VStr q
                                | None => VNone
                                end)
  /\ context !! "related_tags" = Some (VTagCounts (related_tags db object_list))
  /\ context !! "filters" = Some (VFilters (get_ticket_filters db))
  /\ context !! "tags" = Some (VTags tag_table)
  /\ context !! "tag"
     = TagMixin.get_context_data tag_table kwargs super_context !! "tag"
  /\ context !! "status"
     = Py.if_truthy (kwargs !! "status") (fun s => Some (VStr (PyStr.title s)))
         (super_context !! "status")
  /\ context !! "username"
     = Py.if_truthy (kwargs !! "username") (fun s => Some (VStr s))
         (super_context !! "username")
  /\ context !! "what"
     = Py.if_truthy (kwargs !! "what")
         (fun s => Some (VStr (PyStr.replace "_" " " s))) (super_context !! "what")
  /\ context !! "type"
     = Py.if_truthy (kwargs !! "type")
         (fun ty => Some (match PyStr.dict_of_pairs TICKET_TYPE_CHOICES !! ty with
                          | Some label => VStr label
                          | None => VNone
                          end))
         (super_context !! "type").
Proof.
  intros context. subst context.
  unfold TicketListView_get_context_data, TicketListViewBase_get_context_data,
    TagMixin.get_context_data. cbv zeta.
  repeat split; try intros name Hname; read_context; try reflexivity;
    exfalso; apply Hname; subst; simpl; auto 12.
Qed.



Lemma list_view_context_witness :
  @TicketListView_get_context_data Site.choices Sample.db Site.tag_table
    (Sample.get_by AnonymousUser) {[ "status" := "closed" ]} []
    {[ "paginator" := VGeneric 1 ]} !! "paginator"
  = ({[ "paginator" := VGeneric 1 ]} : gmap string Value) !! "paginator".
Proof.
  apply (proj1 (@list_view_context Site.choices Sample.db Site.tag_table
                  (Sample.get_by AnonymousUser) {[ "status" := "closed" ]} []
                  {[ "paginator" := VGeneric 1 ]})).
  simpl. intuition discriminate.
Defined.

(** ** The tickets of a user *)

(** The page of a user's tickets -- a user name in the URL, and no query,
    type or status: a ticket is listed exactly when it is in the table and
    the user submitted it, if [what] is [submitted_by]; the user is its
    assignee, if [what] is [assigned_to]; either of the two, for any other
    [what] and for none. *)
Theorem tickets_of_user
    (db : Database) (request : HttpRequest) (kwargs : gmap string string) (name : string) :
  kwargs !! "username" = Some name -> name <> "" ->
  Py.truthy (GET request !! "q") = false ->
  Py.truthy (kwargs !! "type") = false ->
  Py.truthy (kwargs !! "status") = false ->
  forall t,
    In t (get_queryset_tickets db request kwargs)
    <-> In t (Ticket_table db)
        /\ (kwargs !! "what" = Some "submitted_by" -> username (submitted_by t) = name)
        /\ (kwargs !! "what" <> Some "submitted_by" ->
            kwargs !! "what" = Some "assigned_to" ->
            exists u, assigned_to t = Some u /\ username u = name)
        /\ (kwargs !! "what" <> Some "submitted_by" ->
            kwargs !! "what" <> Some "assigned_to" ->
            username (submitted_by t) = name
            \/ exists u, assigned_to t = Some u /\ username u = name).
Proof.
  intros Hname Hne Hq Htype Hstatus t.
  destruct (get_queryset_tickets_no_status db request kwargs Hstatus) as [Hperm _].
  assert (Hsel : selected_by_parameters request kwargs t
                 = username_selects (kwargs !! "what") name t).
  { unfold selected_by_parameters.
    rewrite (if_truthy_false (GET request !! "q")) by exact Hq.
    rewrite (if_truthy_false (kwargs !! "type")) by exact Htype.
    rewrite Hname. unfold Py.if_truthy.
    destruct (String.eqb_spec name "") as [|_]; [contradiction|].
    simpl. apply andb_true_r. }
  rewrite <- username_selects_spec, <- Hsel, <- filter_In.
  split; apply Permutation_in; [exact Hperm | symmetry; exact Hperm].
Qed.

Lemma tickets_of_user_witness :
  In Sample.export_crash
    (get_queryset_tickets Sample.db (Sample.get_by AnonymousUser)
       (<[ "what" := "assigned_to" ]> {[ "username" := "root" ]}))
  <-> In Sample.export_crash (Ticket_table Sample.db)
      /\ ((<[ "what" := "assigned_to" ]> {[ "username" := "root" ]} : gmap string string)
          !! "what" = Some "submitted_by" ->
          username (submitted_by Sample.export_crash) = "root")
      /\ ((<[ "what" := "assigned_to" ]> {[ "username" := "root" ]} : gmap string string)
          !! "what" <> Some "submitted_by" ->
          (<[ "what" := "assigned_to" ]> {[ "username" := "root" ]} : gmap string string)
          !! "what" = Some "assigned_to" ->
          exists u, assigned_to Sample.export_crash = Some u /\ username u = "root")
      /\ ((<[ "what" := "assigned_to" ]> {[ "username" := "root" ]} : gmap string string)
          !! "what" <> Some "submitted_by" ->
          (<[ "what" := "assigned_to" ]> {[ "username" := "root" ]} : gmap string string)
          !! "what" <> Some "assigned_to" ->
          username (submitted_by Sample.export_crash) = "root"
          \/ exists u, assigned_to Sample.export_crash = Some u /\ username u = "root").
Proof.
  refine (tickets_of_user Sample.db (Sample.get_by AnonymousUser)
            (<[ "what" := "assigned_to" ]> {[ "username" := "root" ]}) "root"
            eq_refl _ eq_refl eq_refl eq_refl Sample.export_crash).
  discriminate.
Defined.

(** ** A ticket that is not there *)



Lemma TicketCommentView_post_selects_form_witness :
  exists form,
    form_class form = CloseTicketForm
    /\ @posts_form Sample.externals
         (@TicketCommentView Sample.externals Sample.db
            (Sample.post_by (AuthenticatedUser Sample.root) {[ "comment" := "fixed" ]})
            1 "closed")
         (Sample.post_by (AuthenticatedUser Sample.root) {[ "comment" := "fixed" ]})
         Sample.login_bug "closed" form.
Proof.
  apply (@TicketCommentView_post_selects_form Sample.externals Sample.db
           (Sample.post_by (AuthenticatedUser Sample.root) {[ "comment" := "fixed" ]})
           1 "closed" Sample.login_bug Sample.root CloseTicketForm);
    try reflexivity.
  left. reflexivity.
Defined.

(** ** What the list shows of its parameters *)


